(** * PDF-Splitter: page selection, page extraction and batch processing

    A shallow embedding of [backend/main.py]: the page-selection parser
    [parse_page_selection], the single-file endpoint [split_pdf] and the
    batch endpoint [batch_process], together with the theorems that relate
    them to the written specification.

    Conventions of the embedding.
    - A Python [str] is a [string]; a character is a code point below 256.
    - A Python [int] is a [Z].
    - A raised exception is the [Raise] case of [result]; [str(e)] is
      [exn_str].
    - The upload directory is a finite map from paths to file contents that
      the endpoints thread through; [uuid.uuid4()] is an argument.
    - PyPDF2 is an interface ([Codec]) the endpoints are parameterised by;
      it also carries the text of pydantic's validation error. *)

From Stdlib Require Import ZArith Ascii String List Lia.
From stdpp Require Import base tactics option list list_numbers numbers
  strings pretty sorting gmap.

Local Open Scope string_scope.
Local Open Scope Z_scope.
Local Open Scope list_scope.

(** ** Exceptions *)

Inductive exn : Type :=
  | ValueError (msg : string)
  | IndexError (msg : string)
  | PdfReadError (msg : string)
  | HTTPException (status_code : Z) (detail : string).

(** [str(e)] *)
Definition exn_str (e : exn) : string :=
  match e with
  | ValueError m | IndexError m | PdfReadError m => m
  | HTTPException _ d => d
  end.

Inductive result (A : Type) : Type :=
  | Ok (a : A)
  | Raise (e : exn).
Arguments Ok {A} a.
Arguments Raise {A} e.

Global Instance result_ret : MRet result := λ A a, Ok a.
Global Instance result_bind : MBind result := λ A B k r,
  match r with
  | Ok a => k a
  | Raise e => Raise e
  end.

(** ** The Python built-ins the backend calls *)

Module Py.

(** [str.isspace] on one character (code points below 256). *)
Definition isspace (c : ascii) : bool :=
  let n := N_of_ascii c in
  ((9 <=? n) && (n <=? 13) || (28 <=? n) && (n <=? 32)
   || (n =? 133) || (n =? 160))%N.

(** Dropping the leading, the trailing, or both runs of the characters
    that [space] holds of. *)
Fixpoint lstrip_by (space : ascii → bool) (s : string) : string :=
  match s with
  | String c s' => if space c then lstrip_by space s' else s
  | EmptyString => EmptyString
  end.

Fixpoint rstrip_by (space : ascii → bool) (s : string) : string :=
  match s with
  | String c s' =>
      match rstrip_by space s' with
      | EmptyString => if space c then EmptyString else String c EmptyString
      | t => String c t
      end
  | EmptyString => EmptyString
  end.

Definition strip_by (space : ascii → bool) (s : string) : string :=
  rstrip_by space (lstrip_by space s).

(** [s.lstrip()], [s.rstrip()], [s.strip()] *)
Definition lstrip : string → string := lstrip_by isspace.
Definition rstrip : string → string := rstrip_by isspace.
Definition strip : string → string := strip_by isspace.

(** [s.split(sep)] for a one-character separator. *)
Fixpoint split (sep : ascii) (s : string) : list string :=
  match s with
  | EmptyString => [EmptyString]
  | String c s' =>
      if Ascii.eqb c sep then EmptyString :: split sep s'
      else match split sep s' with
           | t :: ts => String c t :: ts
           | [] => [String c EmptyString]
           end
  end.

(** [s.startswith(p)] *)
Fixpoint startswith (s p : string) : bool :=
  match p, s with
  | EmptyString, _ => true
  | String a p', String b s' => Ascii.eqb a b && startswith s' p'
  | String _ _, EmptyString => false
  end.

(** [sub in s] *)
Fixpoint contains (sub s : string) : bool :=
  startswith s sub ||
  match s with
  | String _ s' => contains sub s'
  | EmptyString => false
  end.

(** [s.endswith(p)] *)
Definition endswith (s p : string) : bool :=
  let n := String.length s in
  let k := String.length p in
  (k <=? n)%nat && String.eqb (substring (n - k) k s) p.

(** [str.lower] on one character (code points below 256). *)
Definition lower_char (c : ascii) : ascii :=
  let n := N_of_ascii c in
  if ((65 <=? n) && (n <=? 90)
      || (192 <=? n) && (n <=? 222) && negb (n =? 215))%N
  then ascii_of_N (n + 32) else c.

Fixpoint lower (s : string) : string :=
  match s with
  | String c s' => String (lower_char c) (lower s')
  | EmptyString => EmptyString
  end.

(** [repr(s)] of a string. *)
Definition hex_digit (n : N) : ascii :=
  if (n <? 10)%N then ascii_of_N (48 + n) else ascii_of_N (87 + n).

Definition printable (c : ascii) : bool :=
  let n := N_of_ascii c in
  ((32 <=? n) && (n <? 127) || (161 <=? n) && negb (n =? 173))%N.

Definition repr_char (quote c : ascii) : string :=
  if Ascii.eqb c quote || Ascii.eqb c "\" then String "\" (String c "")
  else if Ascii.eqb c "009" then "\t"
  else if Ascii.eqb c "010" then "\n"
  else if Ascii.eqb c "013" then "\r"
  else if printable c then String c ""
  else let n := N_of_ascii c in
       String "\" (String "x" (String (hex_digit (n / 16))
                                 (String (hex_digit (n mod 16)) ""))).

Fixpoint repr_body (quote : ascii) (s : string) : string :=
  match s with
  | String c s' => repr_char quote c +:+ repr_body quote s'
  | EmptyString => EmptyString
  end.

Definition repr (s : string) : string :=
  let quote : ascii :=
    if contains "'" s && negb (contains (String "034"%char "") s)
    then "034"%char else "'"%char in
  String quote (repr_body quote s +:+ String quote "").

(** [str(n)] of an integer, as an f-string renders it. *)
Definition str_int (n : Z) : string := pretty n.

(** [int(s)]: surrounding white space, an optional sign, decimal digits
    with single underscores between them. The white space [int] skips is
    that of [str.isspace] without the separators 28 to 31. The limit the
    interpreter puts on the number of digits (4300 by default since 3.11)
    is not modelled: on a string of at most 4300 characters it never
    applies, and the theorems that fix what a numeral is read as carry
    that bound. *)
Definition int_space (c : ascii) : bool :=
  let n := N_of_ascii c in
  ((9 <=? n) && (n <=? 13) || (n =? 32) || (n =? 133) || (n =? 160))%N.

Definition digit (c : ascii) : option Z :=
  let n := N_of_ascii c in
  if ((48 <=? n) && (n <=? 57))%N then Some (Z.of_N n - 48) else None.

Fixpoint digits (acc : Z) (after_digit : bool) (s : string) : option Z :=
  match s with
  | EmptyString => if after_digit then Some acc else None
  | String c s' =>
      if Ascii.eqb c "_" then
        if after_digit then digits acc false s' else None
      else match digit c with
           | Some d => digits (10 * acc + d) true s'
           | None => None
           end
  end.

Definition int_literal (s : string) : option Z :=
  match strip_by int_space s with
  | String "+" t => digits 0 false t
  | String "-" t => Z.opp <$> digits 0 false t
  | t => digits 0 false t
  end.

Definition int (s : string) : result Z :=
  match int_literal s with
  | Some n => Ok n
  | None =>
      Raise (ValueError ("invalid literal for int() with base 10: "
                         +:+ substring 0 200 (repr s)))
  end.

(** [range(start, stop)] *)
Definition range (start stop : Z) : list Z := seqZ start (stop - start).

(** [sorted(list(set(l)))] on integers. *)
Definition set (l : list Z) : gset Z := list_to_set l.
Definition sorted (l : list Z) : list Z := merge_sort Z.le l.

(** [l[i]], negative indices counting from the end. *)
Definition getitem {A} (l : list A) (i : Z) : result A :=
  let n := Z.of_nat (length l) in
  let j := if i <? 0 then i + n else i in
  if (j <? 0) || (n <=? j) then
    Raise (IndexError "sequence index out of range")
  else match l !! Z.to_nat j with
       | Some x => Ok x
       | None => Raise (IndexError "sequence index out of range")
       end.

(** [start, end = map(int, parts)]: the conversions run one by one while
    the two targets are filled, and once more when a third part exists. *)
Definition unpack2_int (parts : list string) : result (Z * Z) :=
  match parts with
  | [] =>
      Raise (ValueError "not enough values to unpack (expected 2, got 0)")
  | [a] =>
      _ ← int a;
      Raise (ValueError "not enough values to unpack (expected 2, got 1)")
  | a :: b :: rest =>
      x ← int a;
      y ← int b;
      match rest with
      | [] => Ok (x, y)
      | c :: _ =>
          _ ← int c;
          Raise (ValueError "too many values to unpack (expected 2)")
      end
  end.

End Py.

(** ** [parse_page_selection] *)

(** One turn of the loop over [pages_str.split(',')]: the page numbers the
    part appends to [page_numbers], or the [ValueError] it raises. *)
Definition parse_part (part : string) (max_pages : Z) : result (list Z) :=
  let part := Py.strip part in
  if Py.contains "-" part then
    '(start, end_) ← Py.unpack2_int (Py.split "-" part);
    if (start <? 1) || (end_ >? max_pages) then
      Raise (ValueError ("Page range " +:+ Py.str_int start +:+ "-"
                         +:+ Py.str_int end_ +:+ " is out of range (1-"
                         +:+ Py.str_int max_pages +:+ ")"))
    else Ok (Py.range start (end_ + 1))
  else
    page_num ← Py.int part;
    if (page_num <? 1) || (page_num >? max_pages) then
      Raise (ValueError ("Page " +:+ Py.str_int page_num
                         +:+ " is out of range (1-"
                         +:+ Py.str_int max_pages +:+ ")"))
    else Ok [page_num].

Fixpoint parse_parts (parts : list string) (max_pages : Z)
    (page_numbers : list Z) : result (list Z) :=
  match parts with
  | [] => Ok page_numbers
  | part :: rest =>
      more ← parse_part part max_pages;
      parse_parts rest max_pages (page_numbers ++ more)
  end.

Definition parse_page_selection (pages_str : string) (max_pages : Z)
    : result (list Z) :=
  page_numbers ← parse_parts (Py.split "," pages_str) max_pages [];
  Ok (Py.sorted (elements (Py.set page_numbers))).

(** ** Files, documents and the PDF codec *)

Definition bytes : Type := list Byte.byte.

(** An uploaded file: [file.filename] and what [await file.read()] gives. *)
Record UploadFile : Type := {
  filename : string;
  content : bytes;
}.

(** What a path of the upload directory holds: plain bytes, or a ZIP
    archive seen as its entries in the order [writestr] added them. *)
Inductive fdata : Type :=
  | FileBytes (data : bytes)
  | ZipArchive (entries : list (string * bytes)).

Definition UPLOAD_DIR : string := "uploads".

(** [pdf_reader.metadata]; the two dates as [str] renders them. *)
Record DocumentInformation : Type := {
  di_title : option string;
  di_author : option string;
  di_creator : option string;
  di_producer : option string;
  di_creation_date : option string;
  di_modification_date : option string;
}.

Record PDFMetadata : Type := {
  title : option string;
  author : option string;
  creator : option string;
  producer : option string;
  creation_date : option string;
  modification_date : option string;
  total_pages : Z;
}.

Record PDFSplitResponse : Type := {
  status : string;
  message : option string;
  download_url : option string;
  metadata : option PDFMetadata;
  extracted_text : option string;
  file_size : option string;
}.

Record BatchProcessResponse : Type := {
  batch_status : string;
  batch_message : option string;
  batch_download_url : option string;
  processed_files : Z;
  total_files : Z;
  errors : list string;
}.

(** The libraries as the backend uses them. PyPDF2: [PdfReader] stands
    for building the reader from the uploaded bytes and listing its pages,
    which fails on bytes that are no PDF; on a document that was read,
    taking a page's text and writing pages out succeed. pydantic:
    [validation_error] is [str(e)] of the [ValidationError] that
    [PDFMetadata(...)] raises for the fields listed. *)
Class Codec : Type := {
  Page : Type;
  PdfReader : bytes → result (list Page * option DocumentInformation);
  extract_text : Page → string;
  PdfWriter_write : list Page → bytes;
  validation_error : list string → string;
}.

Module os_path.

(** [s.rfind(c)], [-1] when [c] does not occur. *)
Fixpoint rfind_from (c : ascii) (s : string) (i : Z) (found : Z) : Z :=
  match s with
  | EmptyString => found
  | String a s' =>
      rfind_from c s' (i + 1) (if Ascii.eqb a c then i else found)
  end.
Definition rfind (c : ascii) (s : string) : Z := rfind_from c s 0 (-1).

(** [posixpath.splitext]: the extension starts at the last dot of the
    last path component, leading dots of the component apart. *)
Definition splitext (p : string) : string * string :=
  let sepIndex := rfind "/" p in
  let dotIndex := rfind "." p in
  let name := substring (Z.to_nat (sepIndex + 1))
                        (Z.to_nat (dotIndex - (sepIndex + 1))) p in
  if (dotIndex >? sepIndex)
     && existsb (λ ch, negb (Ascii.eqb ch "."))
                (list_ascii_of_string name)
  then (substring 0 (Z.to_nat dotIndex) p,
        substring (Z.to_nat dotIndex)
                  (String.length p - Z.to_nat dotIndex) p)
  else (p, EmptyString).

(** [posixpath.join(a, b)] *)
Definition join (a b : string) : string :=
  if Py.startswith b "/" then b
  else if String.eqb a "" || Py.endswith a "/" then a +:+ b
  else a +:+ "/" +:+ b.

End os_path.

Definition nl : string := String "010"%char EmptyString.

(** [f"{n / 1024:.2f} KB"] for a byte count [n]: the quotient is exact in
    binary floating point below 2^53 bytes, and the two decimals are rounded
    to nearest, ties to even. *)
Definition format_kb (n : Z) : string :=
  let q := (n * 100) `div` 1024 in
  let r := (n * 100) `mod` 1024 in
  let h := if (r >? 512) || ((r =? 512) && Z.odd q) then q + 1 else q in
  let frac := h `mod` 100 in
  Py.str_int (h `div` 100) +:+ "."
  +:+ (if frac <? 10 then "0" else "") +:+ Py.str_int frac +:+ " KB".

Section Backend.
Context `{Codec}.

(** The fields of [PDFMetadata] declared [str] that were given [None]. *)
Definition missing (field : string) (value : option string) : list string :=
  match value with
  | Some _ => []
  | None => [field]
  end.

Definition missing_fields (m : PDFMetadata) : list string :=
  missing "title" (title m) ++ missing "author" (author m)
  ++ missing "creator" (creator m) ++ missing "producer" (producer m)
  ++ missing "creation_date" (creation_date m)
  ++ missing "modification_date" (modification_date m).

(** [get_pdf_metadata]: every field is passed to [PDFMetadata(...)], [None]
    when the document has no metadata or not that entry. The six
    descriptive fields are declared [str], and pydantic (version 2) raises
    [ValidationError], a [ValueError], when one of them is given [None]. *)
Definition get_pdf_metadata
    (pages : list Page) (info : option DocumentInformation)
    : result PDFMetadata :=
  let m :=
    {| title := info ≫= di_title;
       author := info ≫= di_author;
       creator := info ≫= di_creator;
       producer := info ≫= di_producer;
       creation_date := info ≫= di_creation_date;
       modification_date := info ≫= di_modification_date;
       total_pages := Z.of_nat (length pages) |} in
  match missing_fields m with
  | [] => Ok m
  | fields => Raise (ValueError (validation_error fields))
  end.

(** The header block [f"=== Page {page_num} ===\n{text}\n\n"]. *)
Definition page_block (page_num : Z) (text : string) : string :=
  "=== Page " +:+ Py.str_int page_num +:+ " ===" +:+ nl
  +:+ text +:+ nl +:+ nl.

(** The loop of [split_pdf] over [page_numbers]: the pages added to
    [pdf_writer] so far and the text accumulated so far. *)
Fixpoint extract_loop (pages : list Page) (page_numbers : list Z)
    (pdf_writer : list Page) (extracted_text : string)
    : result (list Page * string) :=
  match page_numbers with
  | [] => Ok (pdf_writer, extracted_text)
  | page_num :: rest =>
      page ← Py.getitem pages (page_num - 1);
      extract_loop pages rest (pdf_writer ++ [page])
        (extracted_text +:+ page_block page_num (extract_text page))
  end.

(** The body of the [try] of [split_pdf]. *)
Definition split_pdf_try (file_id : string) (file : UploadFile)
    (pages : string) (fs : gmap string fdata)
    : result (PDFSplitResponse * gmap string fdata) :=
  '(reader_pages, info) ← PdfReader (content file);
  let total_pages := Z.of_nat (length reader_pages) in
  page_numbers ← parse_page_selection pages total_pages;
  metadata ← get_pdf_metadata reader_pages info;
  '(pdf_writer, extracted_text) ←
    extract_loop reader_pages page_numbers [] "";
  let output := PdfWriter_write pdf_writer in
  let output_path := os_path.join UPLOAD_DIR (file_id +:+ "_split.pdf") in
  Ok ({| status := "success";
         message := Some ("Extracted pages " +:+ pages +:+ " successfully");
         download_url := Some ("/download/" +:+ file_id +:+ "_split.pdf");
         metadata := Some metadata;
         extracted_text := Some (Py.strip extracted_text);
         file_size := Some (format_kb (Z.of_nat (length output))) |},
      <[output_path := FileBytes output]> fs).

Definition split_pdf (file_id : string) (file : UploadFile)
    (pages : string) (output_format : string) (fs : gmap string fdata)
    : result PDFSplitResponse * gmap string fdata :=
  match split_pdf_try file_id file pages fs with
  | Ok (response, fs') => (Ok response, fs')
  | Raise (ValueError msg) => (Raise (HTTPException 400 msg), fs)
  | Raise e =>
      (Raise (HTTPException 500 ("Error splitting PDF: " +:+ exn_str e)), fs)
  end.

(** The loop of [batch_process] copies pages only. *)
Fixpoint add_pages (pages : list Page) (page_numbers : list Z)
    (pdf_writer : list Page) : result (list Page) :=
  match page_numbers with
  | [] => Ok pdf_writer
  | page_num :: rest =>
      page ← Py.getitem pages (page_num - 1);
      add_pages pages rest (pdf_writer ++ [page])
  end.

(** The state the loop over [files] updates. *)
Record batch_state : Type := {
  zipf : list (string * bytes);
  processed : Z;
  errs : list string;
}.

(** What one turn of the loop does with its file: the entry it writes to
    the archive, or the error string it records. *)
Inductive outcome : Type :=
  | Archived (output_filename : string) (data : bytes)
  | Failed (error : string).

Definition process_file (file : UploadFile) (pages : string) : outcome :=
  let name := filename file in
  if negb (Py.endswith (Py.lower name) ".pdf") then
    Failed ("Skipped " +:+ name +:+ ": Not a PDF file")
  else
    match PdfReader (content file) with
    | Raise e => Failed ("Error processing " +:+ name +:+ ": " +:+ exn_str e)
    | Ok (reader_pages, _) =>
        let total_pages := Z.of_nat (length reader_pages) in
        match parse_page_selection pages total_pages with
        | Raise (ValueError msg) =>
            Failed ("Skipped " +:+ name +:+ ": " +:+ msg)
        | Raise e =>
            Failed ("Error processing " +:+ name +:+ ": " +:+ exn_str e)
        | Ok page_numbers =>
            match add_pages reader_pages page_numbers [] with
            | Raise e =>
                Failed ("Error processing " +:+ name +:+ ": "
                          +:+ exn_str e)
            | Ok pdf_writer =>
                Archived ("extracted_" +:+ (os_path.splitext name).1
                         +:+ ".pdf")
                        (PdfWriter_write pdf_writer)
            end
        end
    end.

Definition batch_step (pages : string) (st : batch_state)
    (file : UploadFile) : batch_state :=
  match process_file file pages with
  | Archived output_filename data =>
      {| zipf := zipf st ++ [(output_filename, data)];
         processed := processed st + 1;
         errs := errs st |}
  | Failed error =>
      {| zipf := zipf st;
         processed := processed st;
         errs := errs st ++ [error] |}
  end.

Definition batch_loop (files : list UploadFile) (pages : string)
    (st : batch_state) : batch_state :=
  fold_left (batch_step pages) files st.

Definition batch_process (batch_id : string) (files : list UploadFile)
    (pages : string) (output_format : string) (fs : gmap string fdata)
    : result BatchProcessResponse * gmap string fdata :=
  match files with
  | [] => (Raise (HTTPException 400 "No files uploaded"), fs)
  | _ =>
      let zip_filename := "batch_" +:+ batch_id +:+ ".zip" in
      let zip_path := os_path.join UPLOAD_DIR zip_filename in
      let st := batch_loop files pages
                  {| zipf := []; processed := 0; errs := [] |} in
      let fs := <[zip_path := ZipArchive (zipf st)]> fs in
      if processed st =? 0 then
        (Raise (HTTPException 400 "No files were processed successfully"),
         delete zip_path fs)
      else
        (Ok {| batch_status := "success";
               batch_message :=
                 Some ("Processed " +:+ Py.str_int (processed st)
                       +:+ " files");
               batch_download_url := Some ("/download/" +:+ zip_filename);
               processed_files := processed st;
               total_files := Z.of_nat (length files);
               errors := errs st |},
         fs)
  end.

(** [extract_text_from_pages]: the loop over [pages], which leaves out the
    page numbers outside the document, and the final [text.strip()]. *)
Fixpoint extract_text_from_pages_loop (reader_pages : list Page)
    (pages : list Z) (text : string) : result string :=
  match pages with
  | [] => Ok text
  | page_num :: rest =>
      if (0 <? page_num) && (page_num <=? Z.of_nat (length reader_pages))
      then
        page ← Py.getitem reader_pages (page_num - 1);
        extract_text_from_pages_loop reader_pages rest
          (text +:+ page_block page_num (extract_text page))
      else extract_text_from_pages_loop reader_pages rest text
  end.

Definition extract_text_from_pages (reader_pages : list Page)
    (pages : list Z) : result string :=
  text ← extract_text_from_pages_loop reader_pages pages "";
  Ok (Py.strip text).

(** [upload_pdf]: the name is checked first; the upload is then saved under
    [file_id] and read back from there. *)
Definition upload_pdf (file_id : string) (file : UploadFile)
    (fs : gmap string fdata)
    : result PDFSplitResponse * gmap string fdata :=
  if negb (Py.endswith (Py.lower (filename file)) ".pdf") then
    (Raise (HTTPException 400 "Only PDF files are allowed"), fs)
  else
    let file_path := os_path.join UPLOAD_DIR (file_id +:+ ".pdf") in
    let fs := <[file_path := FileBytes (content file)]> fs in
    match
      '(reader_pages, info) ← PdfReader (content file);
      get_pdf_metadata reader_pages info
    with
    | Ok metadata =>
        (Ok {| status := "success";
               message := Some "PDF uploaded successfully";
               download_url := None;
               metadata := Some metadata;
               extracted_text := None;
               file_size :=
                 Some (format_kb (Z.of_nat (length (content file)))) |},
         fs)
    | Raise e =>
        (Raise (HTTPException 500 ("Error processing PDF: " +:+ exn_str e)),
         fs)
    end.

(** [download_file]: the file of the upload directory under the requested
    name, as [FileResponse] serves it. *)
Record FileResponse : Type := {
  response_path : string;
  response_filename : string;
  response_body : fdata;
}.

Definition download_file (name : string) (fs : gmap string fdata)
    : result FileResponse :=
  let file_path := os_path.join UPLOAD_DIR name in
  match fs !! file_path with
  | None => Raise (HTTPException 404 "File not found")
  | Some body =>
      Ok {| response_path := file_path;
            response_filename := name;
            response_body := body |}
  end.

End Backend.

(** A small codec to run the endpoints on: a document is its bytes, one
    page per byte, and a page's text is the one character of its byte; the
    documents carry no metadata. *)
Definition byte_codec : Codec := {|
  Page := Byte.byte;
  PdfReader data :=
    match data with
    | [] => Raise (PdfReadError "Cannot read an empty file")
    | _ => Ok (data, None)
    end;
  extract_text page := String (ascii_of_byte page) EmptyString;
  PdfWriter_write pages := pages;
  validation_error fields :=
    pretty (length fields) +:+ " validation errors for PDFMetadata";
|}.

(** The same codec on documents that carry every metadata entry. *)
Definition full_info : DocumentInformation :=
  {| di_title := Some "Title";
     di_author := Some "Author";
     di_creator := Some "Creator";
     di_producer := Some "Producer";
     di_creation_date := Some "2024-01-01 00:00:00";
     di_modification_date := Some "2024-01-02 00:00:00" |}.

Definition titled_codec : Codec := {|
  Page := Byte.byte;
  PdfReader data :=
    match data with
    | [] => Raise (PdfReadError "Cannot read an empty file")
    | _ => Ok (data, Some full_info)
    end;
  extract_text page := String (ascii_of_byte page) EmptyString;
  PdfWriter_write pages := pages;
  validation_error fields :=
    pretty (length fields) +:+ " validation errors for PDFMetadata";
|}.

(** * The vocabulary of the specification *)

(** The page numbers each part of an expression stands for, when every
    part is accepted. *)
Definition expansions (parts : list string) (max_pages : Z)
    (pagess : list (list Z)) : Prop :=
  Forall2 (λ part pages, parse_part part max_pages = Ok pages) parts pagess.

(** A token is valid against [max_pages] when its turn of the loop raises
    nothing. *)
Definition valid_token (max_pages : Z) (part : string) : Prop :=
  ∃ pages, parse_part part max_pages = Ok pages.

(** A range token [start-end] written backwards, inside the bounds the
    parser checks. *)
Definition reversed_range (max_pages : Z) (part : string) : Prop :=
  ∃ a b start end_,
    Py.split "-" (Py.strip part) = [a; b]
    ∧ Py.int a = Ok start ∧ Py.int b = Ok end_
    ∧ end_ < start ∧ 1 ≤ start ∧ end_ ≤ max_pages.

(** The tokens the specification has rejected, [t] being the token
    without its surrounding white space: the empty token, the token that is
    no integer, the range that has not exactly one hyphen between two
    integers, and the integer below 1 or above [max_pages]. *)
Definition empty_token (t : string) : Prop := t = "".

Definition non_numeric (t : string) : Prop :=
  Py.contains "-" t = false ∧ Py.int_literal t = None.

Definition malformed_range (t : string) : Prop :=
  Py.contains "-" t = true
  ∧ ¬ ∃ a b start end_,
        Py.split "-" t = [a; b]
        ∧ Py.int_literal a = Some start ∧ Py.int_literal b = Some end_.

Definition page_out_of_range (max_pages : Z) (t : string) : Prop :=
  ∃ page_num,
    Py.int_literal t = Some page_num ∧ (page_num < 1 ∨ max_pages < page_num).

Definition offending (max_pages : Z) (part : string) : Prop :=
  let t := Py.strip part in
  empty_token t ∨ non_numeric t ∨ malformed_range t
  ∨ page_out_of_range max_pages t.

(** [msg] names [what] when [what] occurs in it. *)
Definition names (msg what : string) : Prop := Py.contains what msg = true.




(** A page selection as the specification defines it: strictly increasing
    page numbers, each in [1, total_pages]. *)
Definition PageSelection (total_pages : Z) (selection : list Z) : Prop :=
  StronglySorted Z.lt selection
  ∧ Forall (λ page_num, 1 ≤ page_num ≤ total_pages) selection.

(** The name the specification gives the failure of a batch none of whose
    documents came through. *)
Definition NoDocumentsProcessed : exn :=
  HTTPException 400 "No files were processed successfully".

Section Vocabulary.
Context `{Codec}.

(** [out] holds page [page_num] of [pages] for each [page_num] of the
    selection, in the order of the selection. *)
Definition selected (pages : list Page) (selection : list Z)
    (out : list Page) : Prop :=
  Forall2 (λ page_num page, pages !! Z.to_nat (page_num - 1) = Some page)
          selection out.

(** The text of page [page_num], 1-based. *)
Definition text_of_page (pages : list Page) (page_num : Z) : string :=
  match pages !! Z.to_nat (page_num - 1) with
  | Some page => extract_text page
  | None => ""
  end.

(** The text the specification describes: for each selected page in
    order, a header line [=== Page N ===], the page's text and a blank
    line. *)
Fixpoint text_blocks (pages : list Page) (selection : list Z) : string :=
  match selection with
  | [] => ""
  | page_num :: rest =>
      ("=== Page " +:+ Py.str_int page_num +:+ " ===" +:+ nl
       +:+ text_of_page pages page_num +:+ nl +:+ nl)
      +:+ text_blocks pages rest
  end.

(** That text trimmed of trailing white space. *)
Definition spec_text (pages : list Page) (selection : list Z) : string :=
  Py.rstrip (text_blocks pages selection).

(** The document's name does not end in [.pdf], whatever the case. *)
Definition not_a_pdf (file : UploadFile) : Prop :=
  Py.endswith (Py.lower (filename file)) ".pdf" = false.

(** The document comes through: its turn of the loop writes an entry. *)
Definition comes_through (pages : string) (file : UploadFile) : Prop :=
  ∃ output_filename data,
    process_file file pages = Archived output_filename data.

(** The document fails: its turn of the loop records an error. *)
Definition fails (pages : string) (file : UploadFile) : Prop :=
  ∃ error, process_file file pages = Failed error.

(** What a document leaves in the archive, and in the list of errors. *)
Definition written_entry (pages : string) (file : UploadFile)
    : option (string * bytes) :=
  match process_file file pages with
  | Archived output_filename data => Some (output_filename, data)
  | Failed _ => None
  end.

Definition recorded_error (pages : string) (file : UploadFile)
    : option string :=
  match process_file file pages with
  | Archived _ _ => None
  | Failed error => Some error
  end.

(** The path of the archive of batch [batch_id]. *)
Definition zip_path (batch_id : string) : string :=
  os_path.join UPLOAD_DIR ("batch_" +:+ batch_id +:+ ".zip").

End Vocabulary.

(** The canonical expression of a selection:
    [",".join(str(p) for p in selection)]. *)
Definition render (selection : list Z) : string :=
  String.concat "," (map Py.str_int selection).

(** A token that no document accepts, whatever its page count: empty,
    non-numeric, or a malformed range. *)
Definition ill_formed (part : string) : Prop :=
  let t := Py.strip part in
  empty_token t ∨ non_numeric t ∨ malformed_range t.

(** A string short enough for the interpreter's limit on the digits of an
    integer literal not to apply. *)
Definition within_int_limit (s : string) : Prop :=
  Z.of_nat (String.length s) ≤ 4300.

(** Every character of [s] satisfies [P]. *)
Fixpoint all_chars (P : ascii → bool) (s : string) : bool :=
  match s with
  | String c s' => P c && all_chars P s'
  | EmptyString => true
  end.

(** A decimal digit. *)
Definition is_decimal (c : ascii) : bool :=
  match Py.digit c with Some _ => true | None => false end.

(** * Proofs *)

(** ** Facts about the built-ins *)

Lemma StronglySorted_le_NoDup_lt (l : list Z) :
  StronglySorted Z.le l → NoDup l → StronglySorted Z.lt l.
Proof.
  induction 1 as [|x l Hl IH Hx]; intros Hnd; [constructor|].
  apply NoDup_cons in Hnd as [Hnotin Hnd].
  constructor; [by apply IH|].
  rewrite Forall_forall in Hx |- *. intros y Hy.
  assert (x ≠ y) by (intros ->; done).
  specialize (Hx y Hy). lia.
Qed.

Lemma sorted_set_elem (l : list Z) (p : Z) :
  p ∈ Py.sorted (elements (Py.set l)) ↔ p ∈ l.
Proof.
  unfold Py.sorted, Py.set.
  by rewrite merge_sort_Permutation, elem_of_elements, elem_of_list_to_set.
Qed.

Lemma sorted_set_ascending (l : list Z) :
  StronglySorted Z.lt (Py.sorted (elements (Py.set l))).
Proof.
  apply StronglySorted_le_NoDup_lt.
  - apply StronglySorted_merge_sort; apply _.
  - unfold Py.sorted. rewrite merge_sort_Permutation. apply NoDup_elements.
Qed.

Lemma sorted_set_ext (l1 l2 : list Z) :
  (∀ p, p ∈ l1 ↔ p ∈ l2) →
  Py.sorted (elements (Py.set l1)) = Py.sorted (elements (Py.set l2)).
Proof.
  intros Hl. replace (Py.set l2) with (Py.set l1); [done|].
  apply set_eq. intros p. unfold Py.set.
  by rewrite !elem_of_list_to_set.
Qed.

Lemma elem_of_range (start stop p : Z) :
  p ∈ Py.range start stop ↔ start ≤ p < stop.
Proof. unfold Py.range. rewrite elem_of_seqZ. lia. Qed.

(** ** Facts about [parse_page_selection] *)

Lemma parse_parts_ok parts max_pages pagess acc :
  expansions parts max_pages pagess →
  parse_parts parts max_pages acc = Ok (acc ++ concat pagess).
Proof.
  intros Hexp. revert acc.
  induction Hexp as [|part pages parts pagess Hpart _ IH]; intros acc; simpl.
  - by rewrite app_nil_r.
  - rewrite Hpart. simpl. rewrite IH. by rewrite app_assoc.
Qed.

Lemma parse_parts_inv parts max_pages acc r :
  parse_parts parts max_pages acc = Ok r →
  ∃ pagess, expansions parts max_pages pagess ∧ r = acc ++ concat pagess.
Proof.
  revert acc. induction parts as [|part parts IH]; intros acc; simpl.
  - intros [= <-]. exists []. split; [constructor|by rewrite app_nil_r].
  - destruct (parse_part part max_pages) as [pages|e] eqn:Hpart; [|done].
    simpl. intros (pagess & Hexp & ->)%IH.
    exists (pages :: pagess). split; [by constructor|].
    simpl. by rewrite app_assoc.
Qed.

Lemma parse_ok pages_str max_pages pagess :
  expansions (Py.split "," pages_str) max_pages pagess →
  parse_page_selection pages_str max_pages
  = Ok (Py.sorted (elements (Py.set (concat pagess)))).
Proof.
  intros Hexp. unfold parse_page_selection.
  by rewrite (parse_parts_ok _ _ pagess []).
Qed.

Lemma parse_inv pages_str max_pages sel :
  parse_page_selection pages_str max_pages = Ok sel →
  ∃ pagess, expansions (Py.split "," pages_str) max_pages pagess
            ∧ sel = Py.sorted (elements (Py.set (concat pagess))).
Proof.
  unfold parse_page_selection.
  destruct (parse_parts _ _ _) as [r|e] eqn:Hr; [|done].
  apply parse_parts_inv in Hr as (pagess & Hexp & ->).
  intros [= <-]. by exists pagess.
Qed.

(** ** C1 *)

(** C1. When every token of an expression is valid against [max_pages]
    (the tokens expand to the page lists [pagess]), [parse_page_selection]
    returns a strictly ascending list, hence without duplicates, holding
    exactly the page numbers of the token expansions, whatever the order of
    the tokens; and [parse("2,1,2", 5) = [1, 2]],
    [parse("1-3,5", 5) = [1, 2, 3, 5]]. *)
Theorem parse_sorted_dedup :
  (∀ pages_str max_pages pagess,
     expansions (Py.split "," pages_str) max_pages pagess →
     ∃ sel, parse_page_selection pages_str max_pages = Ok sel
            ∧ StronglySorted Z.lt sel
            ∧ ∀ p, p ∈ sel ↔ p ∈ concat pagess)
  ∧ parse_page_selection "2,1,2" 5 = Ok [1; 2]
  ∧ parse_page_selection "1-3,5" 5 = Ok [1; 2; 3; 5].
Proof.
  split; [|split; vm_compute; reflexivity].
  intros pages_str max_pages pagess Hexp.
  eexists. split; [by apply parse_ok|]. split.
  - apply sorted_set_ascending.
  - intros p. apply sorted_set_elem.
Qed.

Lemma parse_sorted_dedup_witness :
  ∃ sel, parse_page_selection "3,1-2,2" 4 = Ok sel
         ∧ StronglySorted Z.lt sel
         ∧ ∀ p, p ∈ sel ↔ p ∈ concat [[3]; [1; 2]; [2]].
Proof.
  apply (proj1 parse_sorted_dedup "3,1-2,2" 4 [[3]; [1; 2]; [2]]).
  repeat constructor.
Defined.

(** ** Tokens *)

Lemma int_raises_ValueError s e :
  Py.int s = Raise e → ∃ msg, e = ValueError msg.
Proof. unfold Py.int. destruct (Py.int_literal s); naive_solver. Qed.

Lemma unpack2_int_raises_ValueError parts e :
  Py.unpack2_int parts = Raise e → ∃ msg, e = ValueError msg.
Proof.
  destruct parts as [|a [|b [|c rest]]]; simpl; [naive_solver|..].
  - destruct (Py.int a) eqn:Ha; simpl; [naive_solver|].
    intros [= <-]. eauto using int_raises_ValueError.
  - destruct (Py.int a) eqn:Ha; simpl;
      [|intros [= <-]; eauto using int_raises_ValueError].
    destruct (Py.int b) eqn:Hb; simpl; [done|].
    intros [= <-]. eauto using int_raises_ValueError.
  - destruct (Py.int a) eqn:Ha; simpl;
      [|intros [= <-]; eauto using int_raises_ValueError].
    destruct (Py.int b) eqn:Hb; simpl;
      [|intros [= <-]; eauto using int_raises_ValueError].
    destruct (Py.int c) eqn:Hc; simpl; [naive_solver|].
    intros [= <-]. eauto using int_raises_ValueError.
Qed.

Lemma parse_part_raises_ValueError part max_pages e :
  parse_part part max_pages = Raise e → ∃ msg, e = ValueError msg.
Proof.
  unfold parse_part. destruct (Py.contains "-" (Py.strip part)).
  - destruct (Py.unpack2_int _) as [[start end_]|e'] eqn:Hu; simpl.
    + destruct (_ || _); naive_solver.
    + intros [= <-]. eauto using unpack2_int_raises_ValueError.
  - destruct (Py.int _) as [n|e'] eqn:Hn; simpl.
    + destruct (_ || _); naive_solver.
    + intros [= <-]. eauto using int_raises_ValueError.
Qed.

Lemma parse_parts_raises_ValueError parts max_pages acc e :
  parse_parts parts max_pages acc = Raise e → ∃ msg, e = ValueError msg.
Proof.
  revert acc. induction parts as [|part parts IH]; intros acc; simpl; [done|].
  destruct (parse_part part max_pages) eqn:Hpart; simpl; [by apply IH|].
  intros [= <-]. eauto using parse_part_raises_ValueError.
Qed.

Lemma parse_raises_ValueError pages_str max_pages e :
  parse_page_selection pages_str max_pages = Raise e →
  ∃ msg, e = ValueError msg.
Proof.
  unfold parse_page_selection.
  destruct (parse_parts _ _ _) eqn:Hp; simpl; [done|].
  intros [= <-]. eauto using parse_parts_raises_ValueError.
Qed.

Lemma startswith_empty s : Py.startswith s "" = true.
Proof. by destruct s. Qed.

Lemma contains_false_split c s :
  Py.contains (String c "") s = false → Py.split c s = [s].
Proof.
  induction s as [|a s IH]; simpl; [done|].
  rewrite startswith_empty, andb_true_r. intros [Hca Hs]%orb_false_iff.
  rewrite Ascii.eqb_sym, Hca. by rewrite (IH Hs).
Qed.

Lemma valid_tokens_expansions parts max_pages :
  Forall (valid_token max_pages) parts →
  ∃ pagess, expansions parts max_pages pagess.
Proof.
  induction 1 as [|part parts [pages Hpart] _ [pagess IH]].
  - exists []. constructor.
  - exists (pages :: pagess). by constructor.
Qed.

Lemma expansions_elem parts max_pages pagess p :
  expansions parts max_pages pagess →
  p ∈ concat pagess ↔
  ∃ part pages, part ∈ parts ∧ parse_part part max_pages = Ok pages
                ∧ p ∈ pages.
Proof.
  induction 1 as [|part pages parts pagess Hpart _ IH]; simpl.
  - split; [by intros ?%elem_of_nil|]. by intros (? & ? & ?%elem_of_nil & _).
  - rewrite elem_of_app, IH. split.
    + intros [Hp|(part' & pages' & Hin & Hok & Hp)].
      * exists part, pages. by rewrite elem_of_cons; auto.
      * exists part', pages'. by rewrite elem_of_cons; auto.
    + intros (part' & pages' & [->|Hin]%elem_of_cons & Hok & Hp).
      * left. congruence.
      * right. eauto.
Qed.

Lemma parse_same_tokens e e' max_pages :
  Forall (valid_token max_pages) (Py.split "," e) →
  (∀ t, t ∈ Py.split "," e ↔ t ∈ Py.split "," e') →
  parse_page_selection e' max_pages = parse_page_selection e max_pages.
Proof.
  intros Hvalid Hsame.
  assert (Forall (valid_token max_pages) (Py.split "," e')) as Hvalid'.
  { rewrite Forall_forall in Hvalid |- *. intros t Ht.
    by apply Hvalid, Hsame. }
  apply valid_tokens_expansions in Hvalid as [pagess Hexp].
  apply valid_tokens_expansions in Hvalid' as [pagess' Hexp'].
  rewrite (parse_ok _ _ _ Hexp), (parse_ok _ _ _ Hexp'). f_equal.
  apply sorted_set_ext. intros p.
  rewrite (expansions_elem _ _ _ _ Hexp), (expansions_elem _ _ _ _ Hexp').
  by setoid_rewrite Hsame.
Qed.

(** ** C7 *)

(** C7. For an expression whose tokens are all valid against a fixed
    [max_pages], parsing an expression whose tokens are a permutation of
    the same tokens gives the identical result; more generally so does any
    expression with the same set of tokens, whatever their order and
    multiplicity. *)
Theorem parse_permutation_invariant :
  (∀ e e' max_pages,
     Forall (valid_token max_pages) (Py.split "," e) →
     Py.split "," e ≡ₚ Py.split "," e' →
     parse_page_selection e' max_pages = parse_page_selection e max_pages)
  ∧ (∀ e e' max_pages,
       Forall (valid_token max_pages) (Py.split "," e) →
       (∀ t, t ∈ Py.split "," e ↔ t ∈ Py.split "," e') →
       parse_page_selection e' max_pages = parse_page_selection e max_pages).
Proof.
  split; intros e e' max_pages Hvalid Hsame.
  - apply parse_same_tokens; [done|]. intros t. by rewrite Hsame.
  - by apply parse_same_tokens.
Qed.

Lemma parse_permutation_invariant_witness :
  parse_page_selection "4,1-3,2" 5 = parse_page_selection "1-3,2,4" 5.
Proof.
  apply (proj1 parse_permutation_invariant "1-3,2,4" "4,1-3,2" 5).
  - repeat constructor; eexists; vm_compute; reflexivity.
  - vm_compute. symmetry. apply (Permutation_cons_append ["1-3"; "2"] "4").
Defined.

(** ** C9 *)

Lemma reversed_range_empty max_pages part :
  reversed_range max_pages part → parse_part part max_pages = Ok [].
Proof.
  intros (a & b & start & end_ & Hsplit & Ha & Hb & Hlt & Hstart & Hend).
  unfold parse_part.
  destruct (Py.contains "-" (Py.strip part)) eqn:Hc.
  - rewrite Hsplit. simpl. rewrite Ha. simpl. rewrite Hb. simpl.
    replace (start <? 1) with false by lia.
    replace (end_ >? max_pages) with false by lia. simpl.
    unfold Py.range. by rewrite seqZ_nil by lia.
  - apply contains_false_split in Hc. congruence.
Qed.

(** C9. A reversed range token [start-end] with [start > end],
    [start >= 1] and [end <= max_pages] is accepted and contributes no page
    number; an expression made of such tokens only parses to the empty
    selection; and [parse("5-2", 5) = []]. *)
Theorem reversed_range_accepted :
  (∀ max_pages part,
     reversed_range max_pages part → parse_part part max_pages = Ok [])
  ∧ (∀ max_pages pages_str,
       Forall (reversed_range max_pages) (Py.split "," pages_str) →
       parse_page_selection pages_str max_pages = Ok [])
  ∧ parse_page_selection "5-2" 5 = Ok [].
Proof.
  split; [apply reversed_range_empty|]. split; [|by vm_compute].
  intros max_pages pages_str Hall.
  assert (expansions (Py.split "," pages_str) max_pages
            (replicate (length (Py.split "," pages_str)) [])) as Hexp.
  { unfold expansions. induction Hall; simpl; constructor; [|done].
    by apply reversed_range_empty. }
  rewrite (parse_ok _ _ _ Hexp). f_equal.
  replace (concat _) with (@nil Z); [by vm_compute|].
  clear. induction (length _); simpl; auto.
Qed.

Lemma reversed_range_accepted_witness :
  parse_part " 4-2" 5 = Ok []
  ∧ parse_page_selection "4-2,3-1" 5 = Ok [].
Proof.
  split.
  - apply (proj1 reversed_range_accepted 5 " 4-2").
    exists "4", "2", 4, 2. vm_compute. by repeat split.
  - apply (proj1 (proj2 reversed_range_accepted) 5 "4-2,3-1").
    repeat constructor.
    + exists "4", "2", 4, 2. vm_compute. by repeat split.
    + exists "3", "1", 3, 1. vm_compute. by repeat split.
Defined.

(** ** What an accepted token is *)

Lemma int_ok_literal s n : Py.int s = Ok n ↔ Py.int_literal s = Some n.
Proof. unfold Py.int. destruct (Py.int_literal s); naive_solver. Qed.

Lemma unpack2_int_ok_inv parts start end_ :
  Py.unpack2_int parts = Ok (start, end_) →
  ∃ a b, parts = [a; b] ∧ Py.int a = Ok start ∧ Py.int b = Ok end_.
Proof.
  destruct parts as [|a [|b [|c rest]]]; simpl; [done|..].
  - by destruct (Py.int a).
  - destruct (Py.int a) eqn:Ha; simpl; [|done].
    destruct (Py.int b) eqn:Hb; simpl; [|done].
    intros [= <- <-]. eauto.
  - destruct (Py.int a) eqn:Ha; simpl; [|done].
    destruct (Py.int b) eqn:Hb; simpl; [|done].
    by destruct (Py.int c).
Qed.

Lemma parse_part_ok_inv part max_pages pages :
  parse_part part max_pages = Ok pages →
  (Py.contains "-" (Py.strip part) = false
   ∧ ∃ page_num, Py.int (Py.strip part) = Ok page_num
                 ∧ 1 ≤ page_num ≤ max_pages ∧ pages = [page_num])
  ∨ (Py.contains "-" (Py.strip part) = true
     ∧ ∃ a b start end_,
         Py.split "-" (Py.strip part) = [a; b]
         ∧ Py.int a = Ok start ∧ Py.int b = Ok end_
         ∧ 1 ≤ start ∧ end_ ≤ max_pages
         ∧ pages = Py.range start (end_ + 1)).
Proof.
  unfold parse_part. destruct (Py.contains "-" (Py.strip part)) eqn:Hc.
  - destruct (Py.unpack2_int _) as [[start end_]|e] eqn:Hu; simpl; [|done].
    apply unpack2_int_ok_inv in Hu as (a & b & Hsplit & Ha & Hb).
    destruct (_ || _) eqn:Hrange; [done|]. intros [= <-].
    right. split; [done|]. exists a, b, start, end_.
    repeat split; [done..|lia|lia].
  - destruct (Py.int _) as [n|e] eqn:Hn; simpl; [|done].
    destruct (_ || _) eqn:Hrange; [done|]. intros [= <-].
    left. split; [done|]. exists n. repeat split; [lia|lia].
Qed.

(** Every page number of a successful parse lies in [1, max_pages]. *)
Lemma parse_part_in_range part max_pages pages p :
  parse_part part max_pages = Ok pages → p ∈ pages → 1 ≤ p ≤ max_pages.
Proof.
  intros [[_ (n & _ & Hn & ->)]
         |[_ (a & b & start & end_ & _ & _ & _ & Hs & He & ->)]]%parse_part_ok_inv.
  - intros ->%list_elem_of_singleton. done.
  - rewrite elem_of_range. lia.
Qed.

Lemma parse_in_range pages_str max_pages sel :
  parse_page_selection pages_str max_pages = Ok sel →
  Forall (λ p, 1 ≤ p ≤ max_pages) sel.
Proof.
  intros (pagess & Hexp & ->)%parse_inv. apply Forall_forall. intros p.
  rewrite sorted_set_elem, (expansions_elem _ _ _ _ Hexp).
  intros (part & pages & _ & Hok & Hp). eauto using parse_part_in_range.
Qed.

(** ** C6 *)

(** C6 as stated fails: against a document of no pages the non-empty token
    [1-0] raises nothing, and the expression made of it parses to the empty
    selection. *)
Lemma zero_pages_counterexample :
  Py.strip "1-0" ≠ ""
  ∧ parse_part "1-0" 0 = Ok []
  ∧ parse_page_selection "1-0" 0 = Ok []
  ∧ ¬ (∀ part, Py.strip part ≠ "" →
               ∃ msg, parse_part part 0 = Raise (ValueError msg)).
Proof.
  split; [done|]. split; [by vm_compute|]. split; [by vm_compute|].
  intros Hall. by destruct (Hall "1-0") as [msg Hmsg].
Qed.

(** C6, amended. With [max_pages = 0] every token either raises
    [ValueError] or is a reversed range [start-end] with [start >= 1] and
    [end <= 0], which contributes no page; a token without a hyphen always
    raises; and a parse that succeeds returns the empty selection. *)
Theorem zero_pages_tokens :
  (∀ part,
     (∃ msg, parse_part part 0 = Raise (ValueError msg))
     ∨ (reversed_range 0 part ∧ parse_part part 0 = Ok []))
  ∧ (∀ part,
       Py.contains "-" (Py.strip part) = false →
       ∃ msg, parse_part part 0 = Raise (ValueError msg))
  ∧ (∀ pages_str sel, parse_page_selection pages_str 0 = Ok sel → sel = []).
Proof.
  assert (∀ part,
     (∃ msg, parse_part part 0 = Raise (ValueError msg))
     ∨ (reversed_range 0 part ∧ parse_part part 0 = Ok [])) as Htoken.
  { intros part. destruct (parse_part part 0) as [pages|e] eqn:Hpart.
    - right.
      destruct (parse_part_ok_inv _ _ _ Hpart)
        as [[_ (n & _ & Hn & _)]
           |[_ (a & b & start & end_ & Hsplit & Ha & Hb & Hs & He & ->)]];
        [lia|].
      assert (reversed_range 0 part) as Hrev.
      { exists a, b, start, end_. repeat split; [done..|lia|lia|lia]. }
      split; [done|]. f_equal.
      unfold Py.range. by rewrite seqZ_nil by lia.
    - left. apply parse_part_raises_ValueError in Hpart as [msg ->]. eauto. }
  split; [done|]. split.
  - intros part Hc. destruct (Htoken part) as [?|[Hrev _]]; [done|].
    destruct Hrev as (a & b & ? & ? & Hsplit & _).
    apply contains_false_split in Hc. congruence.
  - intros pages_str sel (pagess & Hexp & ->)%parse_inv.
    assert (concat pagess = []) as ->; [|by vm_compute].
    induction Hexp as [|part pages parts pagess Hpart _ IH]; [done|].
    simpl. rewrite IH.
    destruct (Htoken part) as [[msg Hmsg]|[_ Hnil]]; [congruence|].
    rewrite Hnil in Hpart. by injection Hpart as <-.
Qed.

Lemma zero_pages_tokens_witness :
  ∃ msg, parse_part " 1 " 0 = Raise (ValueError msg).
Proof. apply (proj1 (proj2 zero_pages_tokens) " 1 "). reflexivity. Defined.

(** ** White space and integer literals *)

Lemma lstrip_by_head space s c t :
  Py.lstrip_by space s = String c t → space c = false.
Proof.
  induction s as [|a s IH]; simpl; [done|].
  destruct (space a) eqn:Ha; [done|]. by intros [= <- <-].
Qed.

Lemma rstrip_by_head space c s :
  space c = false → ∃ r, Py.rstrip_by space (String c s) = String c r.
Proof.
  intros Hc. simpl. destruct (Py.rstrip_by space s); rewrite ?Hc; eauto.
Qed.

(** Trimming white space a second time, by the same or a smaller set of
    characters, changes nothing. *)
Lemma rstrip_by_sub (f g : ascii → bool) s :
  (∀ c, f c = true → g c = true) →
  Py.rstrip_by f (Py.rstrip_by g s) = Py.rstrip_by g s.
Proof.
  intros Hsub. induction s as [|c s IH]; simpl; [done|].
  destruct (Py.rstrip_by g s) as [|d r] eqn:Hr.
  - destruct (g c) eqn:Hc; simpl; [done|].
    destruct (f c) eqn:Hf; [|done]. apply Hsub in Hf. congruence.
  - simpl in *. by rewrite IH.
Qed.

Lemma strip_by_sub (f g : ascii → bool) s :
  (∀ c, f c = true → g c = true) →
  Py.strip_by f (Py.strip_by g s) = Py.strip_by g s.
Proof.
  intros Hsub. unfold Py.strip_by.
  destruct (Py.lstrip_by g s) as [|c t] eqn:Hs; [done|].
  apply lstrip_by_head in Hs.
  destruct (rstrip_by_head g c t Hs) as [r Hr]. rewrite Hr.
  assert (f c = false) as Hf.
  { destruct (f c) eqn:Hf; [|done]. apply Hsub in Hf. congruence. }
  simpl Py.lstrip_by. rewrite Hf, <-Hr. by apply rstrip_by_sub.
Qed.

Lemma strip_idem s : Py.strip (Py.strip s) = Py.strip s.
Proof. by apply strip_by_sub. Qed.

Lemma int_space_isspace c : Py.int_space c = true → Py.isspace c = true.
Proof. destruct c as [[] [] [] [] [] [] [] []]; by vm_compute. Qed.

Lemma int_strip_strip s :
  Py.strip_by Py.int_space (Py.strip s) = Py.strip s.
Proof. apply strip_by_sub, int_space_isspace. Qed.

Lemma contains_char_cons c a s :
  Py.contains (String c "") (String a s)
  = Ascii.eqb c a || Py.contains (String c "") s.
Proof.
  cbn [Py.contains Py.startswith]. by rewrite startswith_empty, andb_true_r.
Qed.

Lemma digits_no_hyphen acc after_digit s n :
  Py.digits acc after_digit s = Some n → Py.contains "-" s = false.
Proof.
  revert acc after_digit.
  induction s as [|c s IH]; intros acc after_digit; [done|].
  rewrite contains_char_cons. cbn [Py.digits].
  destruct (Ascii.eqb_spec "-" c) as [<-|Hc]; [done|].
  cbn [orb]. destruct (Ascii.eqb c "_").
  - destruct after_digit; [apply IH|done].
  - destruct (Py.digit c); [apply IH|done].
Qed.

(** A literal with a minus sign is read as a range whose first part is
    empty, which [int] rejects. *)
Lemma signed_literal_unpack t n :
  Py.strip_by Py.int_space t = t →
  Py.int_literal t = Some n → Py.contains "-" t = true →
  ∃ msg, Py.unpack2_int (Py.split "-" t) = Raise (ValueError msg).
Proof.
  unfold Py.int_literal. intros ->.
  destruct t as [|c r]; [done|].
  destruct (Ascii.eqb_spec c "-") as [->|Hc].
  - intros (m & Hm & _)%fmap_Some _. apply digits_no_hyphen in Hm.
    simpl. rewrite (contains_false_split _ _ Hm). simpl. eauto.
  - intros Hd Hcontains.
    assert (Py.contains "-" (String c r) = false) as Hfalse; [|congruence].
    destruct (Ascii.eqb_spec c "+") as [->|Hplus].
    + apply digits_no_hyphen in Hd. simpl. by rewrite Hd.
    + assert (Py.digits 0 false (String c r) = Some n) as Hd'.
      { revert Hd. destruct c as [[] [] [] [] [] [] [] []]; done. }
      eauto using digits_no_hyphen.
Qed.

(** ** Rejected tokens *)

Lemma offending_raises max_pages part :
  offending max_pages part →
  ∃ msg, parse_part part max_pages = Raise (ValueError msg).
Proof.
  intros Hoff.
  destruct (parse_part part max_pages) as [pages|e] eqn:Hpart;
    [|apply parse_part_raises_ValueError in Hpart as [msg ->]; eauto].
  exfalso. unfold offending in Hoff.
  destruct (parse_part_ok_inv _ _ _ Hpart)
    as [[Hc (n & Hn & Hrange & _)]
       |[Hc (a & b & start & end_ & Hsplit & Ha & Hb & _)]].
  - apply int_ok_literal in Hn.
    destruct Hoff as [He|[[_ Hnone]|[[Hc' _]|(n' & Hn' & Hout)]]].
    + rewrite He in Hn. done.
    + congruence.
    + congruence.
    + assert (n' = n) as -> by congruence. lia.
  - destruct Hoff as [He|[[Hc' _]|[[_ Hmal]|(n' & Hn' & Hout)]]].
    + rewrite He in Hc. done.
    + congruence.
    + apply Hmal. exists a, b, start, end_.
      by rewrite <-!int_ok_literal.
    + destruct (signed_literal_unpack _ _ (int_strip_strip part) Hn' Hc)
        as [msg Hmsg].
      rewrite Hsplit in Hmsg. simpl in Hmsg.
      rewrite Ha, Hb in Hmsg. done.
Qed.


Lemma parse_parts_exists_raise parts max_pages acc :
  Exists (λ part, ∃ e, parse_part part max_pages = Raise e) parts →
  ∃ e, parse_parts parts max_pages acc = Raise e.
Proof.
  intros Hex. revert acc.
  induction Hex as [part parts [e He]|part parts _ IH]; intros acc; simpl.
  - rewrite He. simpl. eauto.
  - destruct (parse_part part max_pages); simpl; eauto.
Qed.

Lemma parse_offending_raises pages_str max_pages :
  Exists (offending max_pages) (Py.split "," pages_str) →
  ∃ msg, parse_page_selection pages_str max_pages = Raise (ValueError msg).
Proof.
  intros Hex.
  destruct (parse_parts_exists_raise (Py.split "," pages_str) max_pages [])
    as [e He].
  { eapply Exists_impl; [done|]. intros part [msg Hmsg]%offending_raises.
    eauto. }
  destruct (parse_parts_raises_ValueError _ _ _ _ He) as [msg ->].
  exists msg. unfold parse_page_selection. by rewrite He.
Qed.

(** ** Messages *)

Lemma startswith_app x b : Py.startswith (x +:+ b) x = true.
Proof.
  induction x as [|c x IH]; simpl; [apply startswith_empty|].
  by rewrite Ascii.eqb_refl, IH.
Qed.

Lemma contains_app_l x b : Py.contains x (x +:+ b) = true.
Proof.
  destruct (x +:+ b) eqn:Hxb; cbn [Py.contains];
    by rewrite <-Hxb, startswith_app.
Qed.

Lemma contains_app_r x a b :
  Py.contains x b = true → Py.contains x (a +:+ b) = true.
Proof.
  intros Hb. induction a as [|c a IH]; [done|].
  change (String c a +:+ b) with (String c (a +:+ b)).
  cbn [Py.contains]. rewrite IH. apply orb_true_r.
Qed.

Lemma names_middle a x b : names (a +:+ x +:+ b) x.
Proof. apply contains_app_r, contains_app_l. Qed.

Lemma substring_all n s :
  (String.length s ≤ n)%nat → substring 0 n s = s.
Proof.
  revert n. induction s as [|c s IH]; intros [|n]; simpl; try done; try lia.
  intros Hn. rewrite IH; [done|lia].
Qed.





Lemma string_app_cons c (a b : string) : String c a +:+ b = String c (a +:+ b).
Proof. reflexivity. Qed.

Lemma string_app_assoc (a b c : string) : (a +:+ b) +:+ c = a +:+ b +:+ c.
Proof.
  induction a as [|x a IH]; [done|]. rewrite !string_app_cons. by f_equal.
Qed.

Lemma string_app_empty_r (a : string) : a +:+ "" = a.
Proof.
  induction a as [|x a IH]; [done|]. rewrite string_app_cons. by f_equal.
Qed.

Lemma string_app_length (s1 s2 : string) :
  String.length (s1 +:+ s2) = (String.length s1 + String.length s2)%nat.
Proof. induction s1 as [|c s1 IH]; simpl; [done|]. by rewrite IH. Qed.


Lemma parse_part_no_hyphen part max_pages :
  Py.contains "-" (Py.strip part) = false →
  parse_part part max_pages =
  match Py.int_literal (Py.strip part) with
  | Some page_num =>
      if (page_num <? 1) || (page_num >? max_pages) then
        Raise (ValueError ("Page " +:+ Py.str_int page_num
                           +:+ " is out of range (1-"
                           +:+ Py.str_int max_pages +:+ ")"))
      else Ok [page_num]
  | None =>
      Raise (ValueError ("invalid literal for int() with base 10: "
                         +:+ substring 0 200 (Py.repr (Py.strip part))))
  end.
Proof.
  intros Hc. unfold parse_part, Py.int. rewrite Hc.
  by destruct (Py.int_literal _).
Qed.

(** ** C3 *)




(** ** The extraction loop *)

Section Extraction.
Context `{Codec}.

Lemma getitem_page (pages : list Page) (page_num : Z) :
  1 ≤ page_num ≤ Z.of_nat (length pages) →
  ∃ page, pages !! Z.to_nat (page_num - 1) = Some page
          ∧ Py.getitem pages (page_num - 1) = Ok page.
Proof.
  intros Hrange.
  destruct (pages !! Z.to_nat (page_num - 1)) as [page|] eqn:Hpage.
  - exists page. split; [done|]. unfold Py.getitem.
    replace (page_num - 1 <? 0) with false by lia.
    replace (page_num - 1 <? 0) with false by lia.
    replace (Z.of_nat (length pages) <=? page_num - 1) with false by lia.
    simpl. by rewrite Hpage.
  - apply lookup_ge_None in Hpage. lia.
Qed.

Lemma extract_loop_ok (pages : list Page) (selection : list Z)
    (pdf_writer : list Page) (text : string) :
  Forall (λ page_num, 1 ≤ page_num ≤ Z.of_nat (length pages)) selection →
  ∃ out, selected pages selection out
         ∧ extract_loop pages selection pdf_writer text
           = Ok (pdf_writer ++ out, text +:+ text_blocks pages selection).
Proof.
  intros Hsel. revert pdf_writer text.
  induction Hsel as [|page_num rest Hp _ IH]; intros pdf_writer text.
  - exists []. split; [constructor|]. simpl.
    by rewrite app_nil_r, string_app_empty_r.
  - destruct (getitem_page pages page_num Hp) as (page & Hlook & Hget).
    destruct (IH (pdf_writer ++ [page])
                 (text +:+ page_block page_num (extract_text page)))
      as (out & Hout & Hloop).
    exists (page :: out). split; [by constructor|].
    cbn [extract_loop]. rewrite Hget. simpl. rewrite Hloop.
    rewrite <-app_assoc. simpl. do 2 f_equal.
    cbn [text_blocks]. unfold text_of_page, page_block. rewrite Hlook.
    by rewrite !string_app_assoc.
Qed.

Lemma add_pages_ok (pages : list Page) (selection : list Z)
    (pdf_writer : list Page) :
  Forall (λ page_num, 1 ≤ page_num ≤ Z.of_nat (length pages)) selection →
  ∃ out, selected pages selection out
         ∧ add_pages pages selection pdf_writer = Ok (pdf_writer ++ out).
Proof.
  intros Hsel. revert pdf_writer.
  induction Hsel as [|page_num rest Hp _ IH]; intros pdf_writer.
  - exists []. split; [constructor|]. simpl. by rewrite app_nil_r.
  - destruct (getitem_page pages page_num Hp) as (page & Hlook & Hget).
    destruct (IH (pdf_writer ++ [page])) as (out & Hout & Hloop).
    exists (page :: out). split; [by constructor|].
    cbn [add_pages]. rewrite Hget. simpl. rewrite Hloop.
    by rewrite <-app_assoc.
Qed.

Lemma selected_unique (pages : list Page) selection out1 out2 :
  selected pages selection out1 → selected pages selection out2 →
  out1 = out2.
Proof.
  unfold selected. intros H1 H2.
  eapply (Forall2_unique _ selection); [done..|]. congruence.
Qed.

Lemma selected_full_range (pages : list Page) :
  selected pages (Py.range 1 (Z.of_nat (length pages) + 1)) pages.
Proof.
  unfold selected, Py.range.
  apply Forall2_same_length_lookup_2.
  - rewrite length_seqZ. lia.
  - intros i page_num page [-> _]%lookup_seqZ Hpage.
    by replace (Z.to_nat (1 + Z.of_nat i - 1)) with i by lia.
Qed.

Lemma seqZ_ascending (k : nat) (m : Z) :
  StronglySorted Z.lt (seqZ m (Z.of_nat k)).
Proof.
  revert m. induction k as [|k IH]; intros m.
  - rewrite seqZ_nil by lia. constructor.
  - rewrite seqZ_cons by lia. constructor.
    + replace (Z.pred (Z.of_nat (S k))) with (Z.of_nat k) by lia. apply IH.
    + apply Forall_forall. intros p. rewrite elem_of_seqZ. lia.
Qed.

Lemma full_range_selection (n : nat) :
  PageSelection (Z.of_nat n) (Py.range 1 (Z.of_nat n + 1)).
Proof.
  unfold Py.range. replace (Z.of_nat n + 1 - 1) with (Z.of_nat n) by lia.
  split; [apply seqZ_ascending|].
  apply Forall_forall. intros p. rewrite elem_of_seqZ. lia.
Qed.

Lemma strip_text_blocks (pages : list Page) (selection : list Z) :
  Py.strip (text_blocks pages selection) = spec_text pages selection.
Proof. unfold Py.strip, spec_text. by destruct selection. Qed.

End Extraction.

Lemma parse_page_selection_valid pages_str max_pages selection :
  parse_page_selection pages_str max_pages = Ok selection →
  PageSelection max_pages selection.
Proof.
  intros Hparse. split; [|by eapply parse_in_range].
  apply parse_inv in Hparse as (pagess & _ & ->). apply sorted_set_ascending.
Qed.

(** ** C5 *)

(** C5. For a valid selection the extraction loop of [split_pdf] ends with
    an output document of as many pages as the selection has numbers,
    namely the selected pages in the order of the selection; on the full
    range [1..total_pages] the output holds all pages of the source in
    their order. *)
Theorem extract_selected_pages `{Codec} :
  (∀ (pages : list Page) (selection : list Z),
     PageSelection (Z.of_nat (length pages)) selection →
     ∃ out text,
       extract_loop pages selection [] "" = Ok (out, text)
       ∧ length out = length selection
       ∧ selected pages selection out)
  ∧ (∀ pages : list Page,
       ∃ text,
         extract_loop pages (Py.range 1 (Z.of_nat (length pages) + 1)) [] ""
         = Ok (pages, text)).
Proof.
  split.
  - intros pages selection [_ Hrange].
    destruct (extract_loop_ok pages selection [] "" Hrange)
      as (out & Hout & Hloop).
    exists out. eexists. split; [done|]. split; [|done].
    symmetry. by eapply Forall2_length.
  - intros pages.
    destruct (full_range_selection (length pages)) as [_ Hrange].
    destruct (extract_loop_ok pages _ [] "" Hrange) as (out & Hout & Hloop).
    rewrite (selected_unique _ _ _ _ Hout (selected_full_range pages)) in Hloop.
    eauto.
Qed.

(** ** C8 *)

(** C8. For a valid selection the text the extraction loop accumulates is,
    for each selected page in order, the header line [=== Page N ===], the
    page's text and a blank line; the [strip()] that [split_pdf] applies to
    it before returning it trims its trailing white space and nothing
    else. *)
Theorem extracted_text_blocks `{Codec} (pages : list Page)
    (selection : list Z) :
  PageSelection (Z.of_nat (length pages)) selection →
  ∃ out text,
    extract_loop pages selection [] "" = Ok (out, text)
    ∧ text = text_blocks pages selection
    ∧ Py.strip text = spec_text pages selection.
Proof.
  intros [_ Hrange].
  destruct (extract_loop_ok pages selection [] "" Hrange)
    as (out & Hout & Hloop).
  exists out, (text_blocks pages selection).
  split; [done|]. split; [done|]. apply strip_text_blocks.
Qed.

Lemma extract_selected_pages_witness :
  (∃ out text,
     @extract_loop byte_codec [Byte.x41; Byte.x42; Byte.x43] [1; 3] [] ""
     = Ok (out, text)
     ∧ length out = length [1; 3]
     ∧ @selected byte_codec [Byte.x41; Byte.x42; Byte.x43] [1; 3] out)
  ∧ PageSelection 3 [1; 3].
Proof.
  assert (PageSelection 3 [1; 3]) as Hsel.
  { split; repeat constructor; lia. }
  split; [|exact Hsel].
  exact (proj1 (@extract_selected_pages byte_codec)
           [Byte.x41; Byte.x42; Byte.x43] [1; 3] Hsel).
Defined.

Lemma extracted_text_blocks_witness :
  ∃ out text,
    @extract_loop byte_codec [Byte.x41; Byte.x42; Byte.x43] [1; 3] [] ""
    = Ok (out, text)
    ∧ text = @text_blocks byte_codec [Byte.x41; Byte.x42; Byte.x43] [1; 3]
    ∧ Py.strip text
      = @spec_text byte_codec [Byte.x41; Byte.x42; Byte.x43] [1; 3].
Proof.
  apply (@extracted_text_blocks byte_codec
           [Byte.x41; Byte.x42; Byte.x43] [1; 3]).
  change (PageSelection 3 [1; 3]).
  split; repeat constructor; lia.
Defined.

(** ** The batch loop *)

Section Batch.
Context `{Codec}.

(** The loop visits the files in order; each file adds its entry or its
    error behind those of the files before it. *)
Lemma batch_loop_spec files pages st :
  batch_loop files pages st
  = {| zipf := zipf st ++ omap (written_entry pages) files;
       processed :=
         processed st
         + Z.of_nat (length (omap (written_entry pages) files));
       errs := errs st ++ omap (recorded_error pages) files |}.
Proof.
  revert st. induction files as [|file files IH]; intros [z p e].
  - simpl. rewrite !app_nil_r. f_equal. lia.
  - unfold batch_loop in *. cbn [fold_left]. rewrite IH.
    unfold batch_step, written_entry, recorded_error. csimpl.
    destruct (process_file file pages); csimpl; f_equal;
      rewrite <-?app_assoc; try done; lia.
Qed.

Lemma outcomes_length files pages :
  (length (omap (written_entry pages) files)
   + length (omap (recorded_error pages) files) = length files)%nat.
Proof.
  induction files as [|file files IH]; csimpl; [done|].
  unfold written_entry, recorded_error in *.
  destruct (process_file file pages); csimpl; lia.
Qed.

Lemma all_fail_outcomes files pages :
  Forall (fails pages) files →
  omap (written_entry pages) files = [].
Proof.
  induction 1 as [|file files [error Herr] _ IH]; csimpl; [done|].
  unfold written_entry at 1. by rewrite Herr.
Qed.

Lemma all_through_outcomes files pages :
  Forall (comes_through pages) files →
  omap (recorded_error pages) files = []
  ∧ length (omap (written_entry pages) files) = length files.
Proof.
  induction 1 as [|file files (name & data & Hw) _ [IHe IHw]]; csimpl;
    [done|].
  unfold written_entry at 1, recorded_error at 1. rewrite Hw. csimpl.
  by rewrite IHe, IHw.
Qed.

Lemma not_a_pdf_skipped file pages :
  not_a_pdf file →
  process_file file pages
  = Failed ("Skipped " +:+ filename file +:+ ": Not a PDF file").
Proof. unfold not_a_pdf, process_file. by intros ->. Qed.

Lemma batch_process_nonempty batch_id files pages output_format fs :
  files ≠ [] →
  batch_process batch_id files pages output_format fs
  = let entries := omap (written_entry pages) files in
    if Z.of_nat (length entries) =? 0 then
      (Raise NoDocumentsProcessed, delete (zip_path batch_id) fs)
    else
      (Ok {| batch_status := "success";
             batch_message :=
               Some ("Processed "
                     +:+ Py.str_int (Z.of_nat (length entries))
                     +:+ " files");
             batch_download_url :=
               Some ("/download/" +:+ "batch_" +:+ batch_id +:+ ".zip");
             processed_files := Z.of_nat (length entries);
             total_files := Z.of_nat (length files);
             errors := omap (recorded_error pages) files |},
       <[zip_path batch_id := ZipArchive entries]> fs).
Proof.
  intros Hfiles. unfold batch_process.
  destruct files as [|file files]; [done|].
  rewrite batch_loop_spec. cbn [zipf processed errs app Z.add].
  cbv zeta. fold (zip_path batch_id).
  destruct (_ =? 0); [|done].
  by rewrite delete_insert_eq.
Qed.

End Batch.

(** ** C2 *)

(** C2. A batch run in which no document succeeds fails as a whole and
    retains no archive. The handler is run on at least one document, its
    [files] parameter being required: it raises NoDocumentsProcessed and
    the archive it was building is removed, so the upload directory holds
    nothing at the archive's path. Run on no document at all, the function
    raises HTTP 400 as well and opens no archive. In either case the upload
    directory holds nothing it did not hold before. *)
Theorem no_documents_processed `{Codec} :
  (∀ batch_id files pages output_format fs,
     files ≠ [] →
     Forall (fails pages) files →
     batch_process batch_id files pages output_format fs
     = (Raise NoDocumentsProcessed, delete (zip_path batch_id) fs)
     ∧ (batch_process batch_id files pages output_format fs).2
       !! zip_path batch_id = None)
  ∧ (∀ batch_id files pages output_format fs,
       Forall (fails pages) files →
       (∃ detail,
          (batch_process batch_id files pages output_format fs).1
          = Raise (HTTPException 400 detail))
       ∧ (batch_process batch_id files pages output_format fs).2 ⊆ fs).
Proof.
  assert (∀ batch_id files pages output_format fs,
     files ≠ [] →
     Forall (fails pages) files →
     batch_process batch_id files pages output_format fs
     = (Raise NoDocumentsProcessed, delete (zip_path batch_id) fs))
    as Hrun.
  { intros batch_id files pages output_format fs Hfiles Hfail.
    rewrite (batch_process_nonempty _ _ _ _ _ Hfiles).
    by rewrite (all_fail_outcomes _ _ Hfail). }
  split.
  - intros batch_id files pages output_format fs Hfiles Hfail.
    rewrite (Hrun _ _ _ _ _ Hfiles Hfail).
    split; [done|]. apply lookup_delete_eq.
  - intros batch_id files pages output_format fs Hfail.
    destruct (decide (files = [])) as [->|Hfiles].
    + simpl. split; [eauto|done].
    + rewrite (Hrun _ _ _ _ _ Hfiles Hfail). simpl.
      split; [unfold NoDocumentsProcessed; eauto|apply delete_subseteq].
Qed.

Lemma no_documents_processed_witness :
  let files := [ {| filename := "notes.txt"; content := [Byte.x41] |};
                 {| filename := "short.pdf"; content := [Byte.x41] |};
                 {| filename := "empty.pdf"; content := [] |} ] in
  @batch_process byte_codec "b" files "2" "pdf" ∅
  = (Raise NoDocumentsProcessed, delete (zip_path "b") ∅)
  ∧ (@batch_process byte_codec "b" files "2" "pdf" ∅).2 !! zip_path "b"
    = None.
Proof.
  apply (proj1 (@no_documents_processed byte_codec)).
  - done.
  - repeat constructor; eexists; by vm_compute.
Defined.

(** ** C4 *)

(** C4. A document whose name does not end in [.pdf], whatever the case,
    is skipped with the error [Skipped <name>: Not a PDF file]. The loop
    takes the documents in submission order and a skipped document only
    adds its error: the documents before and after it are processed as they
    would be without it, entries and errors keeping the submission order.
    In a batch where one document has such a name and all others come
    through, wherever it stands, and in particular for three documents of
    which the second is skipped, the report counts the others as
    processed, all as submitted, and holds exactly that one error. *)
Theorem batch_isolates_non_pdf `{Codec} :
  (∀ file pages,
     not_a_pdf file →
     process_file file pages
     = Failed ("Skipped " +:+ filename file +:+ ": Not a PDF file"))
  ∧ (∀ files pages st,
       batch_loop files pages st
       = {| zipf := zipf st ++ omap (written_entry pages) files;
            processed :=
              processed st
              + Z.of_nat (length (omap (written_entry pages) files));
            errs := errs st ++ omap (recorded_error pages) files |})
  ∧ (∀ files1 file files2 pages st,
       not_a_pdf file →
       batch_loop (files1 ++ file :: files2) pages st
       = batch_loop files2 pages
           (let st1 := batch_loop files1 pages st in
            {| zipf := zipf st1;
               processed := processed st1;
               errs := errs st1 ++ ["Skipped " +:+ filename file
                                    +:+ ": Not a PDF file"] |}))
  ∧ (∀ batch_id files1 file files2 pages output_format fs,
       files1 ++ files2 ≠ [] →
       Forall (comes_through pages) (files1 ++ files2) →
       not_a_pdf file →
       ∃ report fs',
         batch_process batch_id (files1 ++ file :: files2) pages
           output_format fs = (Ok report, fs')
         ∧ processed_files report = Z.of_nat (length (files1 ++ files2))
         ∧ total_files report = Z.of_nat (length (files1 ++ files2)) + 1
         ∧ errors report
           = ["Skipped " +:+ filename file +:+ ": Not a PDF file"])
  ∧ (∀ batch_id file1 file2 file3 pages output_format fs,
       comes_through pages file1 →
       not_a_pdf file2 →
       comes_through pages file3 →
       ∃ report fs' error,
         batch_process batch_id [file1; file2; file3] pages
           output_format fs = (Ok report, fs')
         ∧ processed_files report = 2
         ∧ total_files report = 3
         ∧ errors report = [error]
         ∧ error = "Skipped " +:+ filename file2 +:+ ": Not a PDF file"
         ∧ names error "Not a PDF file"
         ∧ names error (filename file2)).
Proof.
  assert (∀ batch_id files1 file files2 pages output_format fs,
       files1 ++ files2 ≠ [] →
       Forall (comes_through pages) (files1 ++ files2) →
       not_a_pdf file →
       ∃ report fs',
         batch_process batch_id (files1 ++ file :: files2) pages
           output_format fs = (Ok report, fs')
         ∧ processed_files report = Z.of_nat (length (files1 ++ files2))
         ∧ total_files report = Z.of_nat (length (files1 ++ files2)) + 1
         ∧ errors report
           = ["Skipped " +:+ filename file +:+ ": Not a PDF file"])
    as Hone.
  { intros batch_id files1 file files2 pages output_format fs Hne Hall Hnot.
    apply Forall_app in Hall as [Hall1 Hall2].
    destruct (all_through_outcomes _ _ Hall1) as [He1 Hw1].
    destruct (all_through_outcomes _ _ Hall2) as [He2 Hw2].
    assert (files1 ++ file :: files2 ≠ []) as Hne' by (by destruct files1).
    rewrite (batch_process_nonempty _ _ _ _ _ Hne'). cbv zeta.
    assert (omap (written_entry pages) (files1 ++ file :: files2)
            = omap (written_entry pages) files1
              ++ omap (written_entry pages) files2) as Hw.
    { rewrite omap_app. csimpl. unfold written_entry at 2.
      by rewrite (not_a_pdf_skipped _ _ Hnot). }
    assert (omap (recorded_error pages) (files1 ++ file :: files2)
            = ["Skipped " +:+ filename file +:+ ": Not a PDF file"]) as He.
    { rewrite omap_app. csimpl. unfold recorded_error at 2.
      rewrite (not_a_pdf_skipped _ _ Hnot). by rewrite He1, He2. }
    rewrite Hw, He, !length_app, Hw1, Hw2.
    assert (length files1 + length files2 ≠ 0)%nat as Hpos.
    { rewrite <-length_app. by destruct (files1 ++ files2). }
    destruct (Z.eqb_spec (Z.of_nat (length files1 + length files2)) 0)
      as [Hz|_]; [lia|].
    eexists _, _. split; [reflexivity|].
    cbn [processed_files total_files errors].
    rewrite ?length_app. cbn [length]. repeat split; lia. }
  split; [apply not_a_pdf_skipped|]. split; [apply batch_loop_spec|].
  split; [|split; [exact Hone|]].
  - intros files1 file files2 pages st Hnot. unfold batch_loop.
    rewrite fold_left_app. cbn [fold_left]. unfold batch_step at 2.
    by rewrite (not_a_pdf_skipped _ _ Hnot).
  - intros batch_id file1 file2 file3 pages output_format fs H1 Hnot H3.
    destruct (Hone batch_id [file1] file2 [file3] pages output_format fs)
      as (report & fs' & Hrun & Hp & Ht & He); [done|by repeat constructor|done|].
    exists report, fs'. eexists. split; [exact Hrun|].
    split; [done|]. split; [done|]. split; [exact He|]. split; [done|].
    split.
    + apply contains_app_r, contains_app_r.
      apply (names_middle ": " "Not a PDF file" "").
    + apply names_middle.
Qed.

Lemma batch_isolates_non_pdf_witness :
  let file1 := {| filename := "a.pdf"; content := [Byte.x41] |} in
  let file2 := {| filename := "b.txt"; content := [Byte.x42] |} in
  let file3 := {| filename := "c.PDF"; content := [Byte.x43; Byte.x44] |} in
  ∃ report fs' error,
    @batch_process byte_codec "b" [file1; file2; file3] "1" "pdf" ∅
    = (Ok report, fs')
    ∧ processed_files report = 2
    ∧ total_files report = 3
    ∧ errors report = [error]
    ∧ error = "Skipped b.txt: Not a PDF file"
    ∧ names error "Not a PDF file"
    ∧ names error "b.txt".
Proof.
  apply (proj2 (proj2 (proj2 (proj2 (@batch_isolates_non_pdf byte_codec))))).
  - eexists _, _. by vm_compute.
  - by vm_compute.
  - eexists _, _. by vm_compute.
Defined.

(** ** C10 *)

(** C10. Each turn of the batch loop either writes one archive entry and
    adds one to the success count, or records one error string, never
    both; so in a run that returns a report, [processed_files] plus the
    number of error strings is [total_files], and [processed_files] is the
    number of entries of the archive left at the batch's path. *)
Theorem batch_report_accounts `{Codec} :
  (∀ pages st file,
     (∃ output_filename data,
        batch_step pages st file
        = {| zipf := zipf st ++ [(output_filename, data)];
             processed := processed st + 1;
             errs := errs st |})
     ∨ (∃ error,
          batch_step pages st file
          = {| zipf := zipf st;
               processed := processed st;
               errs := errs st ++ [error] |}))
  ∧ (∀ batch_id files pages output_format fs report fs',
       batch_process batch_id files pages output_format fs
       = (Ok report, fs') →
       processed_files report + Z.of_nat (length (errors report))
       = total_files report
       ∧ ∃ entries,
           fs' !! zip_path batch_id = Some (ZipArchive entries)
           ∧ processed_files report = Z.of_nat (length entries)).
Proof.
  split.
  - intros pages st file. unfold batch_step.
    destruct (process_file file pages); eauto.
  - intros batch_id files pages output_format fs report fs' Hrun.
    assert (files ≠ []) as Hne by (intros ->; discriminate Hrun).
    rewrite (batch_process_nonempty _ _ _ _ _ Hne) in Hrun.
    cbv zeta in Hrun. destruct (_ =? 0) in Hrun; [done|].
    injection Hrun as <- <-. cbn [processed_files total_files errors].
    pose proof (outcomes_length files pages) as Hlen.
    split; [lia|]. eexists. split; [apply lookup_insert_eq|done].
Qed.

Lemma batch_report_accounts_witness :
  let files := [ {| filename := "a.pdf"; content := [Byte.x41] |};
                 {| filename := "b.txt"; content := [Byte.x42] |};
                 {| filename := "c.pdf"; content := [] |};
                 {| filename := "d.pdf"; content := [Byte.x43] |} ] in
  let report :=
    {| batch_status := "success";
       batch_message := Some "Processed 2 files";
       batch_download_url := Some "/download/batch_b.zip";
       processed_files := 2;
       total_files := 4;
       errors := ["Skipped b.txt: Not a PDF file";
                  "Error processing c.pdf: Cannot read an empty file"] |} in
  let fs' : gmap string fdata :=
    {[ "uploads/batch_b.zip" :=
         ZipArchive [("extracted_a.pdf", [Byte.x41]);
                     ("extracted_d.pdf", [Byte.x43])] ]} in
  @batch_process byte_codec "b" files "1" "pdf" ∅ = (Ok report, fs')
  ∧ processed_files report + Z.of_nat (length (errors report))
    = total_files report
  ∧ ∃ entries,
      fs' !! zip_path "b" = Some (ZipArchive entries)
      ∧ processed_files report = Z.of_nat (length entries).
Proof.
  intros files report fs'.
  assert (@batch_process byte_codec "b" files "1" "pdf" ∅ = (Ok report, fs'))
    as Hrun by (vm_compute; reflexivity).
  split; [exact Hrun|].
  exact (proj2 (@batch_report_accounts byte_codec)
           "b" files "1" "pdf" ∅ report fs' Hrun).
Defined.

(** * Further properties of the backend *)

(** ** The parser: bounds, white space, longer documents *)

Lemma ascending_length (l : list Z) (lo hi : Z) :
  StronglySorted Z.lt l → Forall (λ p, lo ≤ p ≤ hi) l →
  Z.of_nat (length l) ≤ Z.max 0 (hi - lo + 1).
Proof.
  intros Hsorted. revert lo.
  induction Hsorted as [|x l _ IH Hx]; intros lo Hrange; simpl; [lia|].
  apply Forall_cons in Hrange as [Hxr Hrange].
  assert (Forall (λ p, x + 1 ≤ p ≤ hi) l) as Htail.
  { rewrite Forall_forall in Hx, Hrange |- *. intros p Hp.
    specialize (Hx p Hp). specialize (Hrange p Hp). lia. }
  specialize (IH (x + 1) Htail). lia.
Qed.

(** X1. A selection that [parse_page_selection] returns is strictly
    increasing, lies within [1, max_pages], and so has at most [max_pages]
    page numbers. *)
Theorem parse_selection_bounded pages_str max_pages selection :
  parse_page_selection pages_str max_pages = Ok selection →
  PageSelection max_pages selection
  ∧ Z.of_nat (length selection) ≤ Z.max 0 max_pages.
Proof.
  intros Hparse.
  pose proof (parse_page_selection_valid _ _ _ Hparse) as [Hs Hr].
  split; [done|].
  pose proof (ascending_length _ 1 max_pages Hs Hr). lia.
Qed.

Lemma parse_selection_bounded_witness :
  PageSelection 4 [1; 2; 3; 4] ∧ Z.of_nat (length [1; 2; 3; 4]) ≤ Z.max 0 4.
Proof.
  apply (parse_selection_bounded "4,1-3,2-4,1" 4 [1; 2; 3; 4]).
  by vm_compute.
Defined.

Lemma parse_part_strip part part' max_pages :
  Py.strip part = Py.strip part' →
  parse_part part max_pages = parse_part part' max_pages.
Proof. unfold parse_part. by intros ->. Qed.

Lemma parse_parts_strip parts parts' max_pages acc :
  Forall2 (λ t t', Py.strip t = Py.strip t') parts parts' →
  parse_parts parts max_pages acc = parse_parts parts' max_pages acc.
Proof.
  intros Hparts. revert acc.
  induction Hparts as [|t t' parts parts' Ht _ IH]; intros acc; [done|].
  simpl. rewrite (parse_part_strip _ _ _ Ht).
  destruct (parse_part t' max_pages); simpl; [apply IH|done].
Qed.

(** X2. White space around the tokens of an expression is ignored: two
    expressions whose tokens agree one by one once stripped parse alike,
    to the same selection or the same error. *)
Theorem parse_ignores_token_spaces e e' max_pages :
  Forall2 (λ t t', Py.strip t = Py.strip t')
          (Py.split "," e) (Py.split "," e') →
  parse_page_selection e' max_pages = parse_page_selection e max_pages.
Proof.
  intros Htokens. unfold parse_page_selection.
  by rewrite (parse_parts_strip _ _ _ _ Htokens).
Qed.

Lemma parse_ignores_token_spaces_witness :
  parse_page_selection "1,3-4,x" 5 = parse_page_selection " 1 ,3-4  , x" 5.
Proof.
  apply (parse_ignores_token_spaces " 1 ,3-4  , x" "1,3-4,x" 5).
  by repeat constructor.
Defined.

Lemma parse_part_single_ok part max_pages page_num :
  Py.contains "-" (Py.strip part) = false →
  Py.int (Py.strip part) = Ok page_num →
  1 ≤ page_num ≤ max_pages →
  parse_part part max_pages = Ok [page_num].
Proof.
  intros Hc Hn Hrange. unfold parse_part. rewrite Hc, Hn. simpl.
  replace (page_num <? 1) with false by lia.
  by replace (page_num >? max_pages) with false by lia.
Qed.

Lemma parse_part_range_ok part max_pages a b start end_ :
  Py.split "-" (Py.strip part) = [a; b] →
  Py.int a = Ok start → Py.int b = Ok end_ →
  1 ≤ start → end_ ≤ max_pages →
  parse_part part max_pages = Ok (Py.range start (end_ + 1)).
Proof.
  intros Hsplit Ha Hb Hs He. unfold parse_part.
  destruct (Py.contains "-" (Py.strip part)) eqn:Hc.
  - rewrite Hsplit. simpl. rewrite Ha. simpl. rewrite Hb. simpl.
    replace (start <? 1) with false by lia.
    by replace (end_ >? max_pages) with false by lia.
  - apply contains_false_split in Hc. congruence.
Qed.

Lemma parse_part_mono part max_pages max_pages' pages :
  max_pages ≤ max_pages' →
  parse_part part max_pages = Ok pages →
  parse_part part max_pages' = Ok pages.
Proof.
  intros Hle
    [[Hc (n & Hn & Hrange & ->)]
    |[_ (a & b & start & end_ & Hsplit & Ha & Hb & Hs & He & ->)]]
    %parse_part_ok_inv.
  - apply parse_part_single_ok; [done..|lia].
  - eapply parse_part_range_ok; [done..|lia].
Qed.

Lemma parse_mono pages_str max_pages max_pages' selection :
  max_pages ≤ max_pages' →
  parse_page_selection pages_str max_pages = Ok selection →
  parse_page_selection pages_str max_pages' = Ok selection.
Proof.
  intros Hle (pagess & Hexp & ->)%parse_inv. apply parse_ok.
  eapply Forall2_impl; [exact Hexp|]. intros part pages.
  by apply parse_part_mono.
Qed.

(** X3. An expression that parses against [max_pages] parses to the same
    selection against any larger page count: what a document accepts, every
    longer document accepts. *)
Theorem parse_accepts_longer_documents pages_str max_pages max_pages'
    selection :
  max_pages ≤ max_pages' →
  parse_page_selection pages_str max_pages = Ok selection →
  parse_page_selection pages_str max_pages' = Ok selection.
Proof. apply parse_mono. Qed.

Lemma parse_accepts_longer_documents_witness :
  parse_page_selection "2-3,1" 7 = Ok [1; 2; 3].
Proof.
  apply (parse_accepts_longer_documents "2-3,1" 3 7 [1; 2; 3]); [lia|].
  by vm_compute.
Defined.

(** ** The parser: joining expressions with a comma *)

Lemma split_nonempty c s : Py.split c s ≠ [].
Proof.
  destruct s as [|x s]; simpl; [done|].
  destruct (Ascii.eqb x c); [done|]. by destruct (Py.split c s).
Qed.

Lemma split_app_sep c a b :
  Py.split c (a +:+ String c b) = Py.split c a ++ Py.split c b.
Proof.
  induction a as [|x a IH].
  - simpl. by rewrite Ascii.eqb_refl.
  - rewrite string_app_cons. cbn [Py.split]. rewrite IH.
    destruct (Ascii.eqb x c); [done|].
    pose proof (split_nonempty c a). by destruct (Py.split c a).
Qed.

Lemma parse_parts_app parts1 parts2 max_pages acc :
  parse_parts (parts1 ++ parts2) max_pages acc
  = (acc' ← parse_parts parts1 max_pages acc;
     parse_parts parts2 max_pages acc').
Proof.
  revert acc. induction parts1 as [|part parts1 IH]; intros acc; [done|].
  simpl. destruct (parse_part part max_pages); simpl; [apply IH|done].
Qed.

Lemma parse_parts_raise_acc parts max_pages acc acc' e :
  parse_parts parts max_pages acc = Raise e →
  parse_parts parts max_pages acc' = Raise e.
Proof.
  revert acc acc'. induction parts as [|part parts IH]; intros acc acc';
    simpl; [done|].
  destruct (parse_part part max_pages); simpl; [apply IH|done].
Qed.

Lemma parse_raise_inv pages_str max_pages e :
  parse_page_selection pages_str max_pages = Raise e →
  parse_parts (Py.split "," pages_str) max_pages [] = Raise e.
Proof.
  unfold parse_page_selection.
  by destruct (parse_parts _ _ _); simpl; [|intros [= ->]].
Qed.

Lemma parse_join e1 e2 max_pages :
  parse_page_selection (e1 +:+ "," +:+ e2) max_pages
  = match parse_page_selection e1 max_pages,
          parse_page_selection e2 max_pages with
    | Ok selection1, Ok selection2 =>
        Ok (Py.sorted (elements (Py.set (selection1 ++ selection2))))
    | Ok _, Raise e => Raise e
    | Raise e, _ => Raise e
    end.
Proof.
  change ("," +:+ e2) with (String "," e2).
  destruct (parse_page_selection e1 max_pages) as [s1|err1] eqn:H1.
  - apply parse_inv in H1 as (pagess1 & Hexp1 & ->).
    destruct (parse_page_selection e2 max_pages) as [s2|err2] eqn:H2.
    + apply parse_inv in H2 as (pagess2 & Hexp2 & ->).
      rewrite (parse_ok _ _ (pagess1 ++ pagess2)).
      * f_equal. apply sorted_set_ext. intros p.
        rewrite concat_app, !elem_of_app, !sorted_set_elem. done.
      * rewrite split_app_sep. by apply Forall2_app.
    + apply parse_raise_inv in H2. unfold parse_page_selection.
      rewrite split_app_sep, parse_parts_app.
      rewrite (parse_parts_ok _ _ _ _ Hexp1). simpl.
      by rewrite (parse_parts_raise_acc _ _ _ _ _ H2).
  - apply parse_raise_inv in H1. unfold parse_page_selection.
    by rewrite split_app_sep, parse_parts_app, H1.
Qed.

(** X4. Joining two expressions with a comma parses to the union of their
    selections, sorted and without duplicates; when one of them is
    rejected so is the joined expression, with the error of the first one
    rejected. *)
Theorem parse_comma_join e1 e2 max_pages :
  parse_page_selection (e1 +:+ "," +:+ e2) max_pages
  = match parse_page_selection e1 max_pages,
          parse_page_selection e2 max_pages with
    | Ok selection1, Ok selection2 =>
        Ok (Py.sorted (elements (Py.set (selection1 ++ selection2))))
    | Ok _, Raise e => Raise e
    | Raise e, _ => Raise e
    end.
Proof. apply parse_join. Qed.

Lemma blank_token_offending max_pages part :
  Py.strip part = "" → offending max_pages part.
Proof. intros Hblank. by left. Qed.

(** X5. A token that is empty or white space only is rejected, so the
    empty expression, an expression with a leading or a trailing comma and
    one with two commas in a row all raise [ValueError], whatever the page
    count. *)
Theorem parse_rejects_blank_tokens :
  (∀ e max_pages,
     Exists (λ part, Py.strip part = "") (Py.split "," e) →
     ∃ msg, parse_page_selection e max_pages = Raise (ValueError msg))
  ∧ (∀ max_pages,
       ∃ msg, parse_page_selection "" max_pages = Raise (ValueError msg))
  ∧ (∀ e max_pages,
       ∃ msg,
         parse_page_selection (e +:+ ",") max_pages = Raise (ValueError msg))
  ∧ (∀ e max_pages,
       ∃ msg,
         parse_page_selection ("," +:+ e) max_pages = Raise (ValueError msg))
  ∧ (∀ e1 e2 max_pages,
       ∃ msg,
         parse_page_selection (e1 +:+ ",," +:+ e2) max_pages
         = Raise (ValueError msg)).
Proof.
  assert (∀ e max_pages,
     Exists (λ part, Py.strip part = "") (Py.split "," e) →
     ∃ msg, parse_page_selection e max_pages = Raise (ValueError msg))
    as Hblank.
  { intros e max_pages Hex. apply parse_offending_raises.
    eapply Exists_impl; [exact Hex|]. apply blank_token_offending. }
  split; [exact Hblank|]. repeat split.
  - intros max_pages. apply Hblank. by constructor.
  - intros e max_pages. apply Hblank.
    rewrite split_app_sep. apply Exists_app. right. by constructor.
  - intros e max_pages. apply Hblank.
    change ("," +:+ e) with ("" +:+ String "," e).
    rewrite split_app_sep. apply Exists_app. left. by constructor.
  - intros e1 e2 max_pages. apply Hblank.
    change (",," +:+ e2) with (String "," ("" +:+ String "," e2)).
    rewrite !split_app_sep. apply Exists_app. right.
    apply Exists_app. left. by constructor.
Qed.

Lemma parse_rejects_blank_tokens_witness :
  ∃ msg, parse_page_selection "1, ,2" 5 = Raise (ValueError msg).
Proof.
  apply (proj1 parse_rejects_blank_tokens "1, ,2" 5).
  apply Exists_cons_tl, Exists_cons_hd. reflexivity.
Defined.

(** ** Decimal numerals *)

Lemma all_chars_impl (P Q : ascii → bool) s :
  (∀ c, P c = true → Q c = true) →
  all_chars P s = true → all_chars Q s = true.
Proof.
  intros HPQ. induction s as [|c s IH]; simpl; [done|].
  intros [Hc Hs]%andb_true_iff. by rewrite (HPQ c Hc), (IH Hs).
Qed.

Lemma all_chars_app P s1 s2 :
  all_chars P (s1 +:+ s2) = all_chars P s1 && all_chars P s2.
Proof.
  induction s1 as [|c s1 IH]; [done|].
  rewrite string_app_cons. simpl. by rewrite IH, andb_assoc.
Qed.

Lemma strip_by_no_space space s :
  all_chars (λ c, negb (space c)) s = true → Py.strip_by space s = s.
Proof.
  intros Hs. unfold Py.strip_by.
  assert (Py.lstrip_by space s = s) as ->.
  { destruct s as [|c s]; [done|]. simpl in *.
    apply andb_true_iff in Hs as [Hc _]. by destruct (space c). }
  induction s as [|c s IH]; [done|]. simpl in *.
  apply andb_true_iff in Hs as [Hc Hs]. rewrite (IH Hs).
  destruct s; [|done]. by destruct (space c).
Qed.

Lemma contains_char_none c s :
  all_chars (λ x, negb (Ascii.eqb c x)) s = true →
  Py.contains (String c "") s = false.
Proof.
  induction s as [|x s IH]; [done|]. simpl all_chars.
  intros [Hx Hs]%andb_true_iff. rewrite contains_char_cons, (IH Hs).
  by destruct (Ascii.eqb c x).
Qed.

Lemma decimal_not_space c : is_decimal c = true → Py.isspace c = false.
Proof. destruct c as [[] [] [] [] [] [] [] []]; by vm_compute. Qed.

Lemma decimal_not_int_space c : is_decimal c = true → Py.int_space c = false.
Proof. destruct c as [[] [] [] [] [] [] [] []]; by vm_compute. Qed.

Lemma decimal_not_comma c : is_decimal c = true → Ascii.eqb "," c = false.
Proof. destruct c as [[] [] [] [] [] [] [] []]; by vm_compute. Qed.

Lemma decimal_not_hyphen c : is_decimal c = true → Ascii.eqb "-" c = false.
Proof. destruct c as [[] [] [] [] [] [] [] []]; by vm_compute. Qed.

Lemma pretty_char_digit (d : N) :
  (d < 10)%N →
  Py.digit (pretty_N_char d) = Some (Z.of_N d)
  ∧ Ascii.eqb (pretty_N_char d) "_" = false.
Proof.
  intros Hd.
  assert (d = 0 ∨ d = 1 ∨ d = 2 ∨ d = 3 ∨ d = 4 ∨ d = 5 ∨ d = 6 ∨ d = 7
          ∨ d = 8 ∨ d = 9)%N as Hcases by lia.
  repeat destruct Hcases as [->|Hcases]; try subst d; by vm_compute.
Qed.

Lemma pretty_go_decimal (x : N) s :
  all_chars is_decimal s = true →
  all_chars is_decimal (pretty_N_go x s) = true.
Proof.
  revert s. induction (N.lt_wf_0 x) as [x _ IH]; intros s Hs.
  destruct (decide (x = 0)%N) as [->|Hx]; [by rewrite pretty_N_go_0|].
  rewrite pretty_N_go_step by lia. apply IH.
  - apply N.div_lt; lia.
  - simpl. rewrite Hs, andb_true_r. unfold is_decimal.
    by destruct (pretty_char_digit (x `mod` 10)%N) as [-> _];
      [apply N.mod_lt|].
Qed.

Lemma digits_pretty_go (x : N) :
  (0 < x)%N →
  ∃ m, ∀ acc after_digit s,
    Py.digits acc after_digit (pretty_N_go x s)
    = Py.digits (acc * m + Z.of_N x) true s.
Proof.
  induction (N.lt_wf_0 x) as [x _ IH]; intros Hx.
  assert (x `mod` 10 < 10)%N as Hmod by (by apply N.mod_lt).
  destruct (pretty_char_digit _ Hmod) as [Hdigit Hunder].
  destruct (decide (x `div` 10 = 0)%N) as [Hsmall|Hbig].
  - exists 10. intros acc after_digit s.
    rewrite pretty_N_go_step, Hsmall, pretty_N_go_0 by done.
    cbn [Py.digits]. rewrite Hunder, Hdigit. f_equal.
    pose proof (N.div_mod x 10). lia.
  - destruct (IH (x `div` 10)%N) as [m Hm];
      [apply N.div_lt; lia|by apply N.neq_0_lt_0|].
    exists (10 * m). intros acc after_digit s.
    rewrite pretty_N_go_step, Hm by done.
    cbn [Py.digits]. rewrite Hunder, Hdigit. f_equal.
    pose proof (N.div_mod x 10). lia.
Qed.

Lemma str_int_cases (n : Z) :
  0 ≤ n →
  n = 0 ∧ Py.str_int n = "0"
  ∨ ∃ x, (0 < x)%N ∧ n = Z.of_N x ∧ Py.str_int n = pretty_N_go x "".
Proof.
  intros Hn. destruct n as [|p|p]; [by left| |lia].
  right. exists (N.pos p). split; [lia|]. split; [done|]. reflexivity.
Qed.

Lemma str_int_decimal (n : Z) :
  0 ≤ n → all_chars is_decimal (Py.str_int n) = true.
Proof.
  intros [[-> ->]|(x & _ & _ & ->)]%str_int_cases; [done|].
  by apply pretty_go_decimal.
Qed.

Lemma decimal_cases c :
  is_decimal c = true →
  (c = "0" ∨ c = "1" ∨ c = "2" ∨ c = "3" ∨ c = "4" ∨ c = "5" ∨ c = "6"
   ∨ c = "7" ∨ c = "8" ∨ c = "9")%char.
Proof.
  destruct c as [[] [] [] [] [] [] [] []]; vm_compute; intros Hc;
    first [discriminate Hc | tauto].
Qed.

Lemma decimal_literal s :
  all_chars is_decimal s = true →
  Py.int_literal s = Py.digits 0 false s.
Proof.
  intros Hs. unfold Py.int_literal.
  rewrite strip_by_no_space
    by (eapply all_chars_impl; [|exact Hs];
        intros c Hc; by rewrite decimal_not_int_space).
  destruct s as [|c s]; [done|]. simpl in Hs.
  apply andb_true_iff in Hs as [Hc%decimal_cases _].
  repeat destruct Hc as [->|Hc]; try subst c; reflexivity.
Qed.

(** [int(str(n))] is [n]. *)
Lemma int_str_int (n : Z) : 0 ≤ n → Py.int (Py.str_int n) = Ok n.
Proof.
  intros Hn. apply int_ok_literal.
  rewrite decimal_literal by by apply str_int_decimal.
  destruct (str_int_cases n Hn) as [[-> ->]|(x & Hx & -> & ->)]; [done|].
  destruct (digits_pretty_go x Hx) as [m Hm]. rewrite Hm.
  cbn [Py.digits]. f_equal; lia.
Qed.

Lemma str_int_strip (n : Z) : 0 ≤ n → Py.strip (Py.str_int n) = Py.str_int n.
Proof.
  intros Hn. apply strip_by_no_space.
  eapply all_chars_impl; [|by apply str_int_decimal].
  intros c Hc. by rewrite decimal_not_space.
Qed.

Lemma str_int_no_hyphen (n : Z) :
  0 ≤ n → Py.contains "-" (Py.str_int n) = false.
Proof.
  intros Hn. apply contains_char_none.
  eapply all_chars_impl; [|by apply str_int_decimal].
  intros c Hc. by rewrite decimal_not_hyphen.
Qed.

Lemma str_int_no_comma (n : Z) :
  0 ≤ n → Py.contains "," (Py.str_int n) = false.
Proof.
  intros Hn. apply contains_char_none.
  eapply all_chars_impl; [|by apply str_int_decimal].
  intros c Hc. by rewrite decimal_not_comma.
Qed.

(** ** The parser on canonical expressions *)

Lemma StronglySorted_lt_le (l : list Z) :
  StronglySorted Z.lt l → StronglySorted Z.le l.
Proof.
  induction 1 as [|x l _ IH Hx]; constructor; [done|].
  eapply Forall_impl; [exact Hx|]. intros y Hy. simpl in Hy. lia.
Qed.

Lemma StronglySorted_lt_NoDup (l : list Z) :
  StronglySorted Z.lt l → NoDup l.
Proof.
  induction 1 as [|x l _ IH Hx]; constructor; [|done].
  intros Hin. rewrite Forall_forall in Hx. specialize (Hx x Hin). lia.
Qed.

(** Sorting and removing duplicates leaves a strictly increasing list as
    it is. *)
Lemma sorted_set_id (l : list Z) :
  StronglySorted Z.lt l → Py.sorted (elements (Py.set l)) = l.
Proof.
  intros Hl. apply (StronglySorted_unique Z.le).
  - apply StronglySorted_merge_sort; apply _.
  - by apply StronglySorted_lt_le.
  - unfold Py.sorted, Py.set. rewrite merge_sort_Permutation.
    apply elements_list_to_set. by apply StronglySorted_lt_NoDup.
Qed.

Lemma seqZ_ascending_any (m len : Z) : StronglySorted Z.lt (seqZ m len).
Proof.
  destruct (decide (len ≤ 0)) as [Hlen|Hlen].
  - rewrite seqZ_nil by done. constructor.
  - replace len with (Z.of_nat (Z.to_nat len)) by lia. apply seqZ_ascending.
Qed.

Lemma parse_part_str_int (n max_pages : Z) :
  1 ≤ n ≤ max_pages → parse_part (Py.str_int n) max_pages = Ok [n].
Proof.
  intros Hn. apply parse_part_single_ok; [| |done].
  - rewrite str_int_strip by lia. apply str_int_no_hyphen. lia.
  - rewrite str_int_strip by lia. apply int_str_int. lia.
Qed.

Lemma split_concat c (ts : list string) :
  ts ≠ [] →
  Forall (λ t, Py.contains (String c "") t = false) ts →
  Py.split c (String.concat (String c "") ts) = ts.
Proof.
  intros Hne Hts. induction Hts as [|t ts Ht Hts IH]; [done|].
  destruct ts as [|t' ts].
  - simpl. by apply contains_false_split.
  - change (String.concat (String c "") (t :: t' :: ts))
      with (t +:+ String c (String.concat (String c "") (t' :: ts))).
    rewrite split_app_sep, (contains_false_split _ _ Ht), IH by done.
    done.
Qed.

(** X6. A single page number written in decimal, with at most 4300
    digits as [max_pages] has, parses to that one page when it lies in
    [1, max_pages], and is otherwise rejected with
    [Page N is out of range (1-max_pages)]. *)
Theorem parse_single_page (n max_pages : Z) :
  0 ≤ n →
  within_int_limit (Py.str_int n) →
  within_int_limit (Py.str_int max_pages) →
  parse_page_selection (Py.str_int n) max_pages
  = if bool_decide (1 ≤ n ≤ max_pages) then Ok [n]
    else Raise (ValueError ("Page " +:+ Py.str_int n
                            +:+ " is out of range (1-"
                            +:+ Py.str_int max_pages +:+ ")")).
Proof.
  intros Hn _ _. unfold parse_page_selection.
  rewrite (contains_false_split _ _ (str_int_no_comma n Hn)).
  cbn [parse_parts].
  rewrite parse_part_no_hyphen
    by (rewrite str_int_strip by done; by apply str_int_no_hyphen).
  rewrite str_int_strip by done.
  pose proof (int_str_int n Hn) as ->%int_ok_literal.
  case_bool_decide as Hrange.
  - replace (n <? 1) with false by lia.
    replace (n >? max_pages) with false by lia. simpl.
    f_equal. apply (sorted_set_id [n]). repeat constructor.
  - assert ((n <? 1) || (n >? max_pages) = true) as -> by lia. done.
Qed.

Lemma parse_single_page_witness :
  parse_page_selection (Py.str_int 12) 20 = Ok [12]
  ∧ parse_page_selection (Py.str_int 21) 20
    = Raise (ValueError "Page 21 is out of range (1-20)").
Proof.
  split.
  - apply (parse_single_page 12 20);
      [lia|unfold within_int_limit; vm_compute; discriminate..].
  - apply (parse_single_page 21 20);
      [lia|unfold within_int_limit; vm_compute; discriminate..].
Defined.

(** X7. A range [a-b] written in decimal with [1 <= a] and
    [0 <= b <= max_pages], both numbers of at most 4300 digits, parses to
    the pages [a, a+1, ..., b], which is the empty selection when
    [b < a]. *)
Theorem parse_single_range (a b max_pages : Z) :
  1 ≤ a → 0 ≤ b ≤ max_pages →
  within_int_limit (Py.str_int a) →
  within_int_limit (Py.str_int b) →
  parse_page_selection (Py.str_int a +:+ "-" +:+ Py.str_int b) max_pages
  = Ok (seqZ a (b + 1 - a)).
Proof.
  intros Ha Hb _ _.
  set (t := Py.str_int a +:+ "-" +:+ Py.str_int b).
  assert (all_chars (λ c, is_decimal c || Ascii.eqb "-" c) t = true) as Ht.
  { unfold t. change ("-" +:+ Py.str_int b) with (String "-" (Py.str_int b)).
    rewrite all_chars_app. simpl.
    rewrite !(all_chars_impl is_decimal); [done|..].
    - by intros c ->.
    - apply str_int_decimal. lia.
    - by intros c ->.
    - apply str_int_decimal. lia. }
  assert (Py.contains "," t = false) as Hcomma.
  { apply contains_char_none. eapply all_chars_impl; [|exact Ht].
    intros c [Hc|Hc%Ascii.eqb_eq]%orb_true_iff.
    - by rewrite decimal_not_comma.
    - by subst c. }
  assert (Py.strip t = t) as Hstrip.
  { apply strip_by_no_space. eapply all_chars_impl; [|exact Ht].
    intros c [Hc|Hc%Ascii.eqb_eq]%orb_true_iff.
    - by rewrite decimal_not_space.
    - by subst c. }
  assert (parse_part t max_pages = Ok (Py.range a (b + 1))) as Hpart.
  { apply (parse_part_range_ok _ _ (Py.str_int a) (Py.str_int b));
      [|apply int_str_int; lia|apply int_str_int; lia|lia|lia].
    rewrite Hstrip. unfold t.
    change ("-" +:+ Py.str_int b) with (String "-" (Py.str_int b)).
    rewrite split_app_sep.
    rewrite !contains_false_split by (apply str_int_no_hyphen; lia). done. }
  rewrite (parse_ok _ _ [Py.range a (b + 1)]).
  - simpl. rewrite app_nil_r. f_equal. apply sorted_set_id.
    apply seqZ_ascending_any.
  - rewrite (contains_false_split _ _ Hcomma). by repeat constructor.
Qed.

Lemma parse_single_range_witness :
  parse_page_selection (Py.str_int 3 +:+ "-" +:+ Py.str_int 6) 8
  = Ok (seqZ 3 (6 + 1 - 3)).
Proof.
  apply (parse_single_range 3 6 8);
    [lia|lia|unfold within_int_limit; vm_compute; discriminate..].
Defined.

(** X8. Every non-empty valid selection is the parse of its own canonical
    expression, the page numbers in decimal separated by commas: rendering
    then parsing gives the selection back. *)
Theorem parse_render_round_trip (selection : list Z) (max_pages : Z) :
  selection ≠ [] →
  PageSelection max_pages selection →
  parse_page_selection (render selection) max_pages = Ok selection.
Proof.
  intros Hne [Hsorted Hrange]. unfold render.
  rewrite (parse_ok _ _ ((λ n, [n]) <$> selection)).
  - f_equal. replace (concat ((λ n, [n]) <$> selection)) with selection.
    + by apply sorted_set_id.
    + clear. induction selection as [|n l IH]; [done|].
      csimpl. by f_equal.
  - rewrite split_concat.
    + unfold expansions. clear Hne Hsorted.
      induction Hrange as [|n l Hn _ IH]; constructor; [|done].
      by apply parse_part_str_int.
    + by destruct selection.
    + apply Forall_fmap. eapply Forall_impl; [exact Hrange|].
      intros n Hn. simpl in *. apply str_int_no_comma. lia.
Qed.

Lemma parse_render_round_trip_witness :
  parse_page_selection (render [2; 5; 11]) 12 = Ok [2; 5; 11].
Proof.
  apply (parse_render_round_trip [2; 5; 11] 12); [done|].
  split; repeat constructor; lia.
Defined.

(** ** [split_pdf]: failures and the download of its result *)

Section Endpoints.
Context `{Codec}.

Lemma get_pdf_metadata_raises (reader_pages : list Page) info e :
  get_pdf_metadata reader_pages info = Raise e → ∃ msg, e = ValueError msg.
Proof.
  unfold get_pdf_metadata. cbv zeta.
  destruct (missing_fields _); [done|]. intros [= <-]. eauto.
Qed.

Lemma get_pdf_metadata_total_pages (reader_pages : list Page) info md :
  get_pdf_metadata reader_pages info = Ok md →
  total_pages md = Z.of_nat (length reader_pages).
Proof.
  unfold get_pdf_metadata. cbv zeta.
  destruct (missing_fields _); [|done]. by intros [= <-].
Qed.

Lemma split_pdf_success file_id file pages_str output_format fs
    reader_pages info selection md :
  PdfReader (content file) = Ok (reader_pages, info) →
  parse_page_selection pages_str (Z.of_nat (length reader_pages))
  = Ok selection →
  get_pdf_metadata reader_pages info = Ok md →
  ∃ out,
    selected reader_pages selection out
    ∧ split_pdf file_id file pages_str output_format fs
      = (Ok {| status := "success";
               message :=
                 Some ("Extracted pages " +:+ pages_str +:+ " successfully");
               download_url :=
                 Some ("/download/" +:+ file_id +:+ "_split.pdf");
               metadata := Some md;
               extracted_text := Some (spec_text reader_pages selection);
               file_size :=
                 Some (format_kb
                         (Z.of_nat (length (PdfWriter_write out)))) |},
         <[os_path.join UPLOAD_DIR (file_id +:+ "_split.pdf")
           := FileBytes (PdfWriter_write out)]> fs).
Proof.
  intros Hread Hparse Hmd.
  destruct (extract_loop_ok reader_pages selection [] ""
              (parse_in_range _ _ _ Hparse)) as (out & Hout & Hloop).
  exists out. split; [done|].
  unfold split_pdf, split_pdf_try.
  rewrite Hread. simpl. rewrite Hparse. simpl. rewrite Hmd. simpl.
  rewrite Hloop. simpl.
  do 4 f_equal. apply strip_text_blocks.
Qed.

Lemma split_pdf_parse_raise file_id file pages_str output_format fs
    reader_pages info e :
  PdfReader (content file) = Ok (reader_pages, info) →
  parse_page_selection pages_str (Z.of_nat (length reader_pages))
  = Raise e →
  split_pdf file_id file pages_str output_format fs
  = (Raise (HTTPException 400 (exn_str e)), fs).
Proof.
  intros Hread Hparse.
  destruct (parse_raises_ValueError _ _ _ Hparse) as [msg ->].
  unfold split_pdf, split_pdf_try.
  rewrite Hread. simpl. by rewrite Hparse.
Qed.

Lemma split_pdf_metadata_raise file_id file pages_str output_format fs
    reader_pages info selection e :
  PdfReader (content file) = Ok (reader_pages, info) →
  parse_page_selection pages_str (Z.of_nat (length reader_pages))
  = Ok selection →
  get_pdf_metadata reader_pages info = Raise e →
  split_pdf file_id file pages_str output_format fs
  = (Raise (HTTPException 400 (exn_str e)), fs).
Proof.
  intros Hread Hparse Hmd.
  destruct (get_pdf_metadata_raises _ _ _ Hmd) as [msg ->].
  unfold split_pdf, split_pdf_try.
  rewrite Hread. simpl. rewrite Hparse. simpl. by rewrite Hmd.
Qed.

(** What a successful [split_pdf] has gone through. *)
Lemma split_pdf_ok_inv file_id file pages_str output_format fs response :
  (split_pdf file_id file pages_str output_format fs).1 = Ok response →
  ∃ reader_pages info selection md out,
    PdfReader (content file) = Ok (reader_pages, info)
    ∧ parse_page_selection pages_str (Z.of_nat (length reader_pages))
      = Ok selection
    ∧ get_pdf_metadata reader_pages info = Ok md
    ∧ selected reader_pages selection out
    ∧ extracted_text response = Some (spec_text reader_pages selection)
    ∧ download_url response
      = Some ("/download/" +:+ file_id +:+ "_split.pdf")
    ∧ (split_pdf file_id file pages_str output_format fs).2
      = <[os_path.join UPLOAD_DIR (file_id +:+ "_split.pdf")
          := FileBytes (PdfWriter_write out)]> fs.
Proof.
  destruct (PdfReader (content file)) as [[reader_pages info]|e] eqn:Hread.
  - destruct (parse_page_selection pages_str
                (Z.of_nat (length reader_pages)))
      as [selection|e] eqn:Hparse.
    + destruct (get_pdf_metadata reader_pages info) as [md|e] eqn:Hmd.
      * destruct (split_pdf_success file_id file pages_str output_format fs
                    _ _ _ _ Hread Hparse Hmd) as (out & Hout & ->).
        intros [= <-]. exists reader_pages, info, selection, md, out.
        by repeat split.
      * by rewrite (split_pdf_metadata_raise _ _ _ _ _ _ _ _ _
                      Hread Hparse Hmd).
    + by rewrite (split_pdf_parse_raise _ _ _ _ _ _ _ _ Hread Hparse).
  - unfold split_pdf, split_pdf_try. rewrite Hread. simpl. by destruct e.
Qed.

Lemma download_file_insert name body (fs : gmap string fdata) :
  download_file name (<[os_path.join UPLOAD_DIR name := body]> fs)
  = Ok {| response_path := os_path.join UPLOAD_DIR name;
          response_filename := name;
          response_body := body |}.
Proof. unfold download_file. by rewrite lookup_insert_eq. Qed.

Lemma download_file_delete name (fs : gmap string fdata) :
  download_file name (delete (os_path.join UPLOAD_DIR name) fs)
  = Raise (HTTPException 404 "File not found").
Proof. unfold download_file. by rewrite lookup_delete_eq. Qed.

End Endpoints.

(** X9. On a document that can be read, [split_pdf] succeeds exactly when
    the expression is accepted against the document's page count and the
    document carries the six descriptive metadata entries. A rejected
    expression gives status 400 with the parser's message; an accepted
    expression on a document lacking an entry gives status 400 with the
    validation error of [PDFMetadata]. A reader failure other than a
    [ValueError] gives status 500 with [Error splitting PDF: ...]. No call
    raises anything but an HTTP error of status 400 or 500, and a call that
    raises leaves the upload directory as it was. *)
Theorem split_pdf_failures `{Codec} :
  (∀ file_id file pages_str output_format fs reader_pages info e,
     PdfReader (content file) = Ok (reader_pages, info) →
     parse_page_selection pages_str (Z.of_nat (length reader_pages))
     = Raise e →
     split_pdf file_id file pages_str output_format fs
     = (Raise (HTTPException 400 (exn_str e)), fs))
  ∧ (∀ file_id file pages_str output_format fs reader_pages info
       selection e,
       PdfReader (content file) = Ok (reader_pages, info) →
       parse_page_selection pages_str (Z.of_nat (length reader_pages))
       = Ok selection →
       get_pdf_metadata reader_pages info = Raise e →
       split_pdf file_id file pages_str output_format fs
       = (Raise (HTTPException 400 (exn_str e)), fs))
  ∧ (∀ file_id file pages_str output_format fs reader_pages info,
       PdfReader (content file) = Ok (reader_pages, info) →
       (∃ response,
          (split_pdf file_id file pages_str output_format fs).1
          = Ok response)
       ↔ (∃ selection,
            parse_page_selection pages_str
              (Z.of_nat (length reader_pages)) = Ok selection)
         ∧ (∃ md, get_pdf_metadata reader_pages info = Ok md))
  ∧ (∀ file_id file pages_str output_format fs e,
       PdfReader (content file) = Raise e →
       (∀ msg, e ≠ ValueError msg) →
       split_pdf file_id file pages_str output_format fs
       = (Raise (HTTPException 500
                   ("Error splitting PDF: " +:+ exn_str e)), fs))
  ∧ (∀ file_id file pages_str output_format fs e,
       (split_pdf file_id file pages_str output_format fs).1 = Raise e →
       (split_pdf file_id file pages_str output_format fs).2 = fs
       ∧ ∃ status detail,
           e = HTTPException status detail
           ∧ (status = 400 ∨ status = 500)).
Proof.
  split; [apply @split_pdf_parse_raise|].
  split; [apply @split_pdf_metadata_raise|]. split; [|split].
  - intros file_id file pages_str output_format fs reader_pages info Hread.
    destruct (parse_page_selection pages_str _) as [selection|e] eqn:Hparse.
    + destruct (get_pdf_metadata reader_pages info) as [md|e] eqn:Hmd.
      * destruct (split_pdf_success file_id file pages_str output_format fs
                    _ _ _ _ Hread Hparse Hmd) as (out & _ & ->).
        split; eauto.
      * rewrite (split_pdf_metadata_raise _ _ _ _ _ _ _ _ _
                   Hread Hparse Hmd).
        split; [intros [? ?]; done|intros [_ [? ?]]; done].
    + rewrite (split_pdf_parse_raise _ _ _ _ _ _ _ _ Hread Hparse).
      split; [intros [? ?]; done|intros [[? ?] _]; done].
  - intros file_id file pages_str output_format fs e Hread Hnot.
    unfold split_pdf, split_pdf_try. rewrite Hread. simpl.
    destruct e; try done. by destruct (Hnot msg).
  - intros file_id file pages_str output_format fs e. unfold split_pdf.
    destruct (split_pdf_try _ _ _ _) as [[response fs']|e']; [done|].
    destruct e'; simpl; intros [= <-]; eauto 6.
Qed.

Lemma split_pdf_failures_witness :
  let file := {| filename := "a.pdf"; content := [Byte.x41; Byte.x42] |} in
  @split_pdf byte_codec "id" file "3" "pdf" ∅
  = (Raise (HTTPException 400
              (exn_str (ValueError "Page 3 is out of range (1-2)"))), ∅)
  ∧ @split_pdf byte_codec "id" file "1" "pdf" ∅
    = (Raise (HTTPException 400
                (exn_str
                   (ValueError "6 validation errors for PDFMetadata"))), ∅).
Proof.
  intros file. split.
  - apply (proj1 (@split_pdf_failures byte_codec) "id" file
             "3" "pdf" ∅ [Byte.x41; Byte.x42] None).
    + reflexivity.
    + by vm_compute.
  - apply (proj1 (proj2 (@split_pdf_failures byte_codec)) "id" file
             "1" "pdf" ∅ [Byte.x41; Byte.x42] None [1]).
    + reflexivity.
    + by vm_compute.
    + by vm_compute.
Defined.

(** X10. After a successful [split_pdf], the name in the response's
    download link is the one [download_file] serves the result under: the
    download returns the PDF written from the pages that the expression
    selects in the document. *)
Theorem split_then_download `{Codec} file_id file pages_str output_format fs
    response :
  (split_pdf file_id file pages_str output_format fs).1 = Ok response →
  let name := file_id +:+ "_split.pdf" in
  download_url response = Some ("/download/" +:+ name)
  ∧ ∃ reader_pages info selection out,
      PdfReader (content file) = Ok (reader_pages, info)
      ∧ parse_page_selection pages_str (Z.of_nat (length reader_pages))
        = Ok selection
      ∧ selected reader_pages selection out
      ∧ download_file name
          (split_pdf file_id file pages_str output_format fs).2
        = Ok {| response_path := os_path.join UPLOAD_DIR name;
                response_filename := name;
                response_body := FileBytes (PdfWriter_write out) |}.
Proof.
  intros Hok name.
  destruct (split_pdf_ok_inv _ _ _ _ _ _ Hok)
    as (reader_pages & info & selection & md & out & Hread & Hparse & _
        & Hout & _ & Hurl & ->).
  split; [done|]. exists reader_pages, info, selection, out.
  repeat split; try done. apply download_file_insert.
Qed.

Lemma split_then_download_witness :
  let file := {| filename := "a.pdf";
                 content := [Byte.x41; Byte.x42; Byte.x43] |} in
  let run := @split_pdf titled_codec "id" file "3,1" "pdf" ∅ in
  ∃ response,
    run.1 = Ok response
    ∧ download_url response = Some ("/download/" +:+ "id_split.pdf")
    ∧ ∃ reader_pages info selection out,
        @PdfReader titled_codec (content file) = Ok (reader_pages, info)
        ∧ parse_page_selection "3,1" (Z.of_nat (length reader_pages))
          = Ok selection
        ∧ @selected titled_codec reader_pages selection out
        ∧ download_file "id_split.pdf" run.2
          = Ok {| response_path := os_path.join UPLOAD_DIR "id_split.pdf";
                  response_filename := "id_split.pdf";
                  response_body :=
                    FileBytes (@PdfWriter_write titled_codec out) |}.
Proof.
  intros file run.
  destruct run.1 as [response|e] eqn:Hrun; [|by vm_compute in Hrun].
  exists response. split; [done|].
  apply (@split_then_download titled_codec "id" file "3,1" "pdf" ∅
           response Hrun).
Defined.

(** ** [batch_process]: the archive and its download *)

(** X11. For a batch of at least one document, the archive can be
    downloaded under the name of the report's download link exactly when
    the batch returns a report, and then holds as many entries as the
    report counts processed files; when the batch fails, the download
    answers 404. *)
Theorem batch_then_download `{Codec} batch_id files pages output_format fs :
  files ≠ [] →
  let name := "batch_" +:+ batch_id +:+ ".zip" in
  let run := batch_process batch_id files pages output_format fs in
  match run.1 with
  | Ok report =>
      batch_download_url report = Some ("/download/" +:+ name)
      ∧ ∃ entries,
          download_file name run.2
          = Ok {| response_path := os_path.join UPLOAD_DIR name;
                  response_filename := name;
                  response_body := ZipArchive entries |}
          ∧ processed_files report = Z.of_nat (length entries)
  | Raise _ =>
      download_file name run.2 = Raise (HTTPException 404 "File not found")
  end.
Proof.
  intros Hne name run. unfold run.
  rewrite (batch_process_nonempty _ _ _ _ _ Hne). cbv zeta.
  destruct (_ =? 0); cbn [fst snd].
  - apply download_file_delete.
  - split; [done|]. eexists. split; [apply download_file_insert|done].
Qed.

Lemma batch_then_download_witness :
  @download_file "batch_b.zip"
    (@batch_process byte_codec "b"
       [ {| filename := "a.txt"; content := [Byte.x41] |} ] "1" "pdf" ∅).2
  = Raise (HTTPException 404 "File not found").
Proof.
  exact (@batch_then_download byte_codec "b"
           [ {| filename := "a.txt"; content := [Byte.x41] |} ] "1" "pdf" ∅
           ltac:(done)).
Defined.

(** X12. [batch_process] raises nothing but an HTTP error of status 400,
    and a report it returns counts at least one processed file, at most as
    many as were submitted, and fewer errors than submitted files. *)
Theorem batch_process_outcomes `{Codec} batch_id files pages output_format
    fs :
  match (batch_process batch_id files pages output_format fs).1 with
  | Ok report =>
      1 ≤ processed_files report ≤ total_files report
      ∧ Z.of_nat (length (errors report)) < total_files report
  | Raise e => ∃ detail, e = HTTPException 400 detail
  end.
Proof.
  destruct (decide (files = [])) as [->|Hne]; [simpl; eauto|].
  rewrite (batch_process_nonempty _ _ _ _ _ Hne). cbv zeta.
  pose proof (outcomes_length files pages) as Hlen.
  destruct (Z.eqb_spec (Z.of_nat (length (omap (written_entry pages) files)))
              0) as [Hz|Hz]; cbn [fst]; [unfold NoDocumentsProcessed; eauto|].
  cbn [processed_files total_files errors]. lia.
Qed.


(** ** [upload_pdf] *)

(** X13. [upload_pdf] answers 400 exactly for the names that do not end in
    [.pdf] whatever the case, the names [batch_process] skips as not being
    PDF files, and then stores nothing. *)
Theorem upload_pdf_name_check `{Codec} file_id file fs :
  (not_a_pdf file →
   upload_pdf file_id file fs
   = (Raise (HTTPException 400 "Only PDF files are allowed"), fs))
  ∧ (∀ detail,
       (upload_pdf file_id file fs).1 = Raise (HTTPException 400 detail) →
       not_a_pdf file).
Proof.
  unfold not_a_pdf, upload_pdf. split.
  - by intros ->.
  - intros detail.
    destruct (Py.endswith (Py.lower (filename file)) ".pdf"); [|done].
    simpl. destruct (PdfReader (content file)) as [[reader_pages info]|?];
      simpl; [|done].
    by destruct (get_pdf_metadata reader_pages info).
Qed.

Lemma upload_pdf_name_check_witness :
  @upload_pdf byte_codec "id"
    {| filename := "notes.txt"; content := [Byte.x41] |} ∅
  = (Raise (HTTPException 400 "Only PDF files are allowed"), ∅).
Proof.
  apply (proj1 (@upload_pdf_name_check byte_codec "id"
                  {| filename := "notes.txt"; content := [Byte.x41] |} ∅)).
  reflexivity.
Defined.

(** X14. An upload whose name ends in [.pdf] is stored under
    [<file_id>.pdf] before it is read, so it stays in the upload directory
    and can be downloaded byte for byte even when the answer is 500, which
    it is when the document cannot be read and when it lacks one of the
    six descriptive metadata entries; when it can be read and carries them
    all, the answer carries the metadata with the document's page count
    and the size of the upload, and no download link. *)
Theorem upload_pdf_stores `{Codec} file_id file fs :
  Py.endswith (Py.lower (filename file)) ".pdf" = true →
  let name := file_id +:+ ".pdf" in
  let run := upload_pdf file_id file fs in
  run.2 = <[os_path.join UPLOAD_DIR name := FileBytes (content file)]> fs
  ∧ download_file name run.2
    = Ok {| response_path := os_path.join UPLOAD_DIR name;
            response_filename := name;
            response_body := FileBytes (content file) |}
  ∧ match PdfReader (content file) with
    | Ok (reader_pages, info) =>
        match get_pdf_metadata reader_pages info with
        | Ok md =>
            ∃ response,
              run.1 = Ok response
              ∧ metadata response = Some md
              ∧ total_pages md = Z.of_nat (length reader_pages)
              ∧ file_size response
                = Some (format_kb (Z.of_nat (length (content file))))
              ∧ download_url response = None
        | Raise e =>
            run.1
            = Raise (HTTPException 500
                       ("Error processing PDF: " +:+ exn_str e))
        end
    | Raise e =>
        run.1
        = Raise (HTTPException 500 ("Error processing PDF: " +:+ exn_str e))
    end.
Proof.
  intros Hname name run. unfold run, upload_pdf. rewrite Hname. cbn [negb].
  cbv zeta. fold name.
  destruct (PdfReader (content file)) as [[reader_pages info]|e]; simpl.
  - destruct (get_pdf_metadata reader_pages info) as [md|e] eqn:Hmd;
      cbn [fst snd].
    + split; [done|]. split; [apply download_file_insert|].
      eexists. split; [done|]. split; [done|].
      split; [by eapply get_pdf_metadata_total_pages|done].
    + split; [done|]. split; [apply download_file_insert|]. done.
  - split; [done|]. split; [apply download_file_insert|]. done.
Qed.

Lemma upload_pdf_stores_witness :
  (let file := {| filename := "broken.PDF"; content := [] |} in
   let run := @upload_pdf byte_codec "id" file ∅ in
   run.2 = <[os_path.join UPLOAD_DIR "id.pdf" := FileBytes []]> ∅
   ∧ download_file "id.pdf" run.2
     = Ok {| response_path := os_path.join UPLOAD_DIR "id.pdf";
             response_filename := "id.pdf";
             response_body := FileBytes [] |}
   ∧ run.1
     = Raise (HTTPException 500
                ("Error processing PDF: " +:+ "Cannot read an empty file")))
  ∧ (let file := {| filename := "untitled.pdf"; content := [Byte.x41] |} in
     let run := @upload_pdf byte_codec "id" file ∅ in
     run.2 = <[os_path.join UPLOAD_DIR "id.pdf" := FileBytes [Byte.x41]]> ∅
     ∧ download_file "id.pdf" run.2
       = Ok {| response_path := os_path.join UPLOAD_DIR "id.pdf";
               response_filename := "id.pdf";
               response_body := FileBytes [Byte.x41] |}
     ∧ run.1
       = Raise (HTTPException 500
                  ("Error processing PDF: "
                   +:+ "6 validation errors for PDFMetadata"))).
Proof.
  split.
  - intros file run.
    exact (@upload_pdf_stores byte_codec "id" file ∅ eq_refl).
  - intros file run.
    exact (@upload_pdf_stores byte_codec "id" file ∅ eq_refl).
Defined.

(** ** [extract_text_from_pages] *)

Section TextOfPages.
Context `{Codec}.

Lemma extract_text_from_pages_loop_spec (reader_pages : list Page)
    (pages : list Z) (text : string) :
  extract_text_from_pages_loop reader_pages pages text
  = Ok (text +:+ text_blocks reader_pages
          (List.filter
             (λ page_num,
                (0 <? page_num)
                && (page_num <=? Z.of_nat (length reader_pages)))
             pages)).
Proof.
  revert text. induction pages as [|page_num rest IH]; intros text.
  - simpl. by rewrite string_app_empty_r.
  - cbn [extract_text_from_pages_loop List.filter].
    destruct ((0 <? page_num)
              && (page_num <=? Z.of_nat (length reader_pages))) eqn:Hin;
      [|apply IH].
    destruct (getitem_page reader_pages page_num) as (page & Hlook & Hget);
      [lia|].
    rewrite Hget. simpl. rewrite IH. f_equal.
    cbn [text_blocks]. unfold text_of_page, page_block. rewrite Hlook.
    by rewrite !string_app_assoc.
Qed.

Lemma filter_in_range (n : Z) (pages : list Z) :
  Forall (λ page_num, 1 ≤ page_num ≤ n) pages →
  List.filter (λ page_num, (0 <? page_num) && (page_num <=? n)) pages
  = pages.
Proof.
  induction 1 as [|page_num rest Hp _ IH]; [done|]. simpl.
  replace (0 <? page_num) with true by lia.
  replace (page_num <=? n) with true by lia. simpl. by rewrite IH.
Qed.

End TextOfPages.

(** X15. [extract_text_from_pages] never raises: page numbers outside
    [1, len(pages)] are passed over, and the result is the header blocks of
    the remaining pages in the order given, trimmed of trailing white
    space; it is the same as on the list without the numbers out of
    range. *)
Theorem extract_text_skips_out_of_range `{Codec} (reader_pages : list Page)
    (pages : list Z) :
  let kept :=
    List.filter
      (λ page_num,
         (0 <? page_num) && (page_num <=? Z.of_nat (length reader_pages)))
      pages in
  extract_text_from_pages reader_pages pages
  = Ok (spec_text reader_pages kept)
  ∧ extract_text_from_pages reader_pages pages
    = extract_text_from_pages reader_pages kept.
Proof.
  intros kept. unfold extract_text_from_pages.
  rewrite !extract_text_from_pages_loop_spec. fold kept.
  assert (List.filter
            (λ page_num,
               (0 <? page_num)
               && (page_num <=? Z.of_nat (length reader_pages))) kept
          = kept) as ->.
  { unfold kept. clear. induction pages as [|page_num rest IH]; [done|].
    simpl. destruct (_ && _) eqn:Hin; [|done]. simpl. by rewrite Hin, IH. }
  simpl. split; [|done]. f_equal. apply strip_text_blocks.
Qed.

(** X16. When [split_pdf] succeeds, [extract_text_from_pages] on the
    selection it parses from the expression gives the very text that
    [split_pdf] returns as [extracted_text]. *)
Theorem extract_text_agrees_with_split `{Codec} file_id file pages_str
    output_format fs reader_pages info selection response :
  PdfReader (content file) = Ok (reader_pages, info) →
  parse_page_selection pages_str (Z.of_nat (length reader_pages))
  = Ok selection →
  (split_pdf file_id file pages_str output_format fs).1 = Ok response →
  ∃ text,
    extracted_text response = Some text
    ∧ extract_text_from_pages reader_pages selection = Ok text.
Proof.
  intros Hread Hparse Hok.
  destruct (split_pdf_ok_inv _ _ _ _ _ _ Hok)
    as (reader_pages' & info' & selection' & md & out & Hread' & Hparse' & _
        & _ & Htext & _).
  rewrite Hread in Hread'. injection Hread' as <- <-.
  rewrite Hparse in Hparse'. injection Hparse' as <-.
  eexists. split; [exact Htext|].
  unfold extract_text_from_pages.
  rewrite extract_text_from_pages_loop_spec.
  rewrite (filter_in_range _ _ (parse_in_range _ _ _ Hparse)).
  simpl. f_equal. apply strip_text_blocks.
Qed.

Lemma extract_text_agrees_with_split_witness :
  let file := {| filename := "a.pdf";
                 content := [Byte.x41; Byte.x42; Byte.x43] |} in
  ∃ response,
    (@split_pdf titled_codec "id" file "3,1" "pdf" ∅).1 = Ok response
    ∧ ∃ text,
        extracted_text response = Some text
        ∧ @extract_text_from_pages titled_codec
            [Byte.x41; Byte.x42; Byte.x43] [1; 3] = Ok text.
Proof.
  intros file.
  destruct (@split_pdf titled_codec "id" file "3,1" "pdf" ∅).1
    as [response|e] eqn:Hrun; [|by vm_compute in Hrun].
  exists response. split; [done|].
  apply (@extract_text_agrees_with_split titled_codec "id" file "3,1" "pdf"
           ∅ [Byte.x41; Byte.x42; Byte.x43] (Some full_info) [1; 3]
           response).
  - reflexivity.
  - by vm_compute.
  - exact Hrun.
Defined.

(** ** [batch_process]: what becomes of one document *)

Section OneDocument.
Context `{Codec}.

Lemma add_pages_extract_loop (reader_pages : list Page) (selection : list Z)
    (pdf_writer : list Page) (text : string) out text' :
  extract_loop reader_pages selection pdf_writer text = Ok (out, text') →
  add_pages reader_pages selection pdf_writer = Ok out.
Proof.
  revert pdf_writer text.
  induction selection as [|page_num rest IH]; intros pdf_writer text; simpl.
  - by intros [= <- _].
  - destruct (Py.getitem reader_pages (page_num - 1)); simpl; [|done].
    apply IH.
Qed.

Lemma process_file_readable file pages reader_pages info :
  Py.endswith (Py.lower (filename file)) ".pdf" = true →
  PdfReader (content file) = Ok (reader_pages, info) →
  match parse_page_selection pages (Z.of_nat (length reader_pages)) with
  | Ok selection =>
      ∃ out,
        selected reader_pages selection out
        ∧ process_file file pages
          = Archived ("extracted_" +:+ (os_path.splitext (filename file)).1
                      +:+ ".pdf")
                     (PdfWriter_write out)
  | Raise e =>
      process_file file pages
      = Failed ("Skipped " +:+ filename file +:+ ": " +:+ exn_str e)
  end.
Proof.
  intros Hname Hread. unfold process_file. rewrite Hname, Hread. cbn [negb].
  destruct (parse_page_selection pages _) as [selection|e] eqn:Hparse.
  - destruct (add_pages_ok reader_pages selection []
                (parse_in_range _ _ _ Hparse)) as (out & Hout & ->).
    eauto.
  - by destruct (parse_raises_ValueError _ _ _ Hparse) as [msg ->].
Qed.

Lemma process_file_rejected file pages :
  (∀ max_pages, ∃ e, parse_page_selection pages max_pages = Raise e) →
  fails pages file.
Proof.
  intros Hparse. unfold fails, process_file.
  destruct (negb _); [eauto|].
  destruct (PdfReader (content file)) as [[reader_pages info]|e]; [|eauto].
  destruct (Hparse (Z.of_nat (length reader_pages))) as [e ->].
  destruct e; eauto.
Qed.

Lemma ill_formed_offending max_pages part :
  ill_formed part → offending max_pages part.
Proof. unfold ill_formed, offending. tauto. Qed.

End OneDocument.

(** X17. For a document named [*.pdf] that can be read: when the batch
    records an error for it, the error is [Skipped <name>: ] followed by
    the parser's message, and [split_pdf] on the same document and
    expression answers 400 with that message; when the batch writes an
    entry, [split_pdf] stores the entry's bytes if the document carries
    the six descriptive metadata entries, and otherwise answers 400 with
    the validation error of [PDFMetadata], which the batch never builds. *)
Theorem batch_entry_agrees_with_split `{Codec} file_id file pages
    output_format fs reader_pages info :
  Py.endswith (Py.lower (filename file)) ".pdf" = true →
  PdfReader (content file) = Ok (reader_pages, info) →
  let path := os_path.join UPLOAD_DIR (file_id +:+ "_split.pdf") in
  match process_file file pages with
  | Archived output_filename data =>
      output_filename
      = "extracted_" +:+ (os_path.splitext (filename file)).1 +:+ ".pdf"
      ∧ match get_pdf_metadata reader_pages info with
        | Ok _ =>
            ∃ response,
              split_pdf file_id file pages output_format fs
              = (Ok response, <[path := FileBytes data]> fs)
        | Raise e =>
            split_pdf file_id file pages output_format fs
            = (Raise (HTTPException 400 (exn_str e)), fs)
        end
  | Failed error =>
      ∃ msg,
        split_pdf file_id file pages output_format fs
        = (Raise (HTTPException 400 msg), fs)
        ∧ error = "Skipped " +:+ filename file +:+ ": " +:+ msg
  end.
Proof.
  intros Hname Hread path.
  pose proof (process_file_readable file pages _ _ Hname Hread) as Hfile.
  destruct (parse_page_selection pages _) as [selection|e] eqn:Hparse.
  - destruct Hfile as (out & Hout & ->). split; [done|].
    destruct (get_pdf_metadata reader_pages info) as [md|e] eqn:Hmd.
    + destruct (split_pdf_success file_id file pages output_format fs
                  _ _ _ _ Hread Hparse Hmd) as (out' & Hout' & ->).
      rewrite (selected_unique _ _ _ _ Hout' Hout). eauto.
    + apply (split_pdf_metadata_raise _ _ _ _ _ _ _ _ _ Hread Hparse Hmd).
  - rewrite Hfile.
    destruct (parse_raises_ValueError _ _ _ Hparse) as [msg ->].
    exists msg. split; [|done].
    apply (split_pdf_parse_raise _ _ _ _ _ _ _ _ Hread Hparse).
Qed.

Lemma batch_entry_agrees_with_split_witness :
  let file := {| filename := "a.pdf"; content := [Byte.x41; Byte.x42] |} in
  (∃ msg,
     @split_pdf byte_codec "id" file "3" "pdf" ∅
     = (Raise (HTTPException 400 msg), ∅)
     ∧ "Skipped a.pdf: Page 3 is out of range (1-2)"
       = "Skipped " +:+ "a.pdf" +:+ ": " +:+ msg)
  ∧ ("extracted_a.pdf"
     = "extracted_" +:+ (os_path.splitext "a.pdf").1 +:+ ".pdf"
     ∧ @split_pdf byte_codec "id" file "1" "pdf" ∅
       = (Raise (HTTPException 400
                   (exn_str
                      (ValueError "6 validation errors for PDFMetadata"))),
          ∅)).
Proof.
  intros file. split.
  - exact (@batch_entry_agrees_with_split byte_codec "id" file
             "3" "pdf" ∅ [Byte.x41; Byte.x42] None eq_refl eq_refl).
  - exact (@batch_entry_agrees_with_split byte_codec "id" file
             "1" "pdf" ∅ [Byte.x41; Byte.x42] None eq_refl eq_refl).
Defined.

(** X18. An expression with a token that is empty, non-numeric or a
    malformed range is rejected for every document, so a batch of at least
    one document run with it fails as a whole with NoDocumentsProcessed
    and leaves no archive. *)
Theorem batch_rejects_ill_formed `{Codec} batch_id files pages output_format
    fs :
  files ≠ [] →
  Exists ill_formed (Py.split "," pages) →
  batch_process batch_id files pages output_format fs
  = (Raise NoDocumentsProcessed, delete (zip_path batch_id) fs).
Proof.
  intros Hne Hill.
  rewrite (batch_process_nonempty _ _ _ _ _ Hne).
  rewrite all_fail_outcomes; [done|].
  apply Forall_forall. intros file _. apply process_file_rejected.
  intros max_pages.
  destruct (parse_offending_raises pages max_pages) as [msg Hmsg]; [|eauto].
  eapply Exists_impl; [exact Hill|]. apply ill_formed_offending.
Qed.

Lemma batch_rejects_ill_formed_witness :
  @batch_process byte_codec "b"
    [ {| filename := "a.pdf"; content := [Byte.x41; Byte.x42] |};
      {| filename := "b.pdf"; content := [Byte.x43] |} ] "1,2-" "pdf" ∅
  = (Raise NoDocumentsProcessed, delete (zip_path "b") ∅).
Proof.
  apply (@batch_rejects_ill_formed byte_codec); [done|].
  apply Exists_cons_tl, Exists_cons_hd.
  right. right. split; [reflexivity|].
  intros (a & b & start & end_ & Hsplit & _ & Hb).
  injection Hsplit as <- <-. discriminate Hb.
Defined.

(** X19. Of two readable documents named [*.pdf], when the one with fewer
    pages comes through a batch, so does the one with more pages: an
    expression is never rejected for a document being too long. *)
Theorem batch_accepts_longer_documents `{Codec} file1 file2 pages
    pages1 info1 pages2 info2 :
  Py.endswith (Py.lower (filename file1)) ".pdf" = true →
  Py.endswith (Py.lower (filename file2)) ".pdf" = true →
  PdfReader (content file1) = Ok (pages1, info1) →
  PdfReader (content file2) = Ok (pages2, info2) →
  (length pages1 ≤ length pages2)%nat →
  comes_through pages file1 → comes_through pages file2.
Proof.
  intros Hname1 Hname2 Hread1 Hread2 Hlen (name & data & Hthrough).
  pose proof (process_file_readable file1 pages _ _ Hname1 Hread1) as H1.
  pose proof (process_file_readable file2 pages _ _ Hname2 Hread2) as H2.
  destruct (parse_page_selection pages (Z.of_nat (length pages1)))
    as [selection|e] eqn:Hparse; [|congruence].
  assert (Z.of_nat (length pages1) ≤ Z.of_nat (length pages2)) as Hle
    by lia.
  rewrite (parse_mono _ _ _ _ Hle Hparse) in H2.
  destruct H2 as (out & _ & H2). unfold comes_through. eauto.
Qed.

Lemma batch_accepts_longer_documents_witness :
  @comes_through byte_codec "2"
    {| filename := "long.pdf"; content := [Byte.x41; Byte.x42; Byte.x43] |}.
Proof.
  apply (@batch_accepts_longer_documents byte_codec
           {| filename := "short.pdf"; content := [Byte.x41; Byte.x42] |}
           {| filename := "long.pdf";
              content := [Byte.x41; Byte.x42; Byte.x43] |}
           "2" [Byte.x41; Byte.x42] None
           [Byte.x41; Byte.x42; Byte.x43] None);
    try reflexivity.
  - simpl. lia.
  - eexists _, _. by vm_compute.
Defined.

(** ** The names of the archive's entries *)

Lemma rfind_from_app c s1 s2 i found :
  os_path.rfind_from c (s1 +:+ s2) i found
  = os_path.rfind_from c s2 (i + Z.of_nat (String.length s1))
      (os_path.rfind_from c s1 i found).
Proof.
  revert i found. induction s1 as [|a s1 IH]; intros i found.
  - simpl. f_equal. lia.
  - rewrite string_app_cons. cbn [os_path.rfind_from String.length].
    rewrite IH. f_equal. lia.
Qed.

Lemma rfind_from_absent c s i found :
  Py.contains (String c "") s = false →
  os_path.rfind_from c s i found = found.
Proof.
  revert i found. induction s as [|a s IH]; intros i found; [done|].
  rewrite contains_char_cons. intros [Hca Hs]%orb_false_iff.
  cbn [os_path.rfind_from]. rewrite Ascii.eqb_sym, Hca. by apply IH.
Qed.

Lemma substring_app_l (s1 s2 : string) :
  substring 0 (String.length s1) (s1 +:+ s2) = s1.
Proof.
  induction s1 as [|a s1 IH]; [by destruct s2|].
  rewrite string_app_cons. simpl. by rewrite IH.
Qed.

Lemma substring_app_r (s1 s2 : string) :
  substring (String.length s1) (String.length s2) (s1 +:+ s2) = s2.
Proof.
  induction s1 as [|a s1 IH]; [|by rewrite string_app_cons].
  simpl. apply substring_all. lia.
Qed.

Lemma lower_app (s1 s2 : string) :
  Py.lower (s1 +:+ s2) = Py.lower s1 +:+ Py.lower s2.
Proof.
  induction s1 as [|a s1 IH]; [done|].
  rewrite string_app_cons. simpl. by rewrite IH.
Qed.

Lemma lower_length (s : string) :
  String.length (Py.lower s) = String.length s.
Proof. induction s as [|a s IH]; simpl; [done|]. by rewrite IH. Qed.

Lemma endswith_app (s1 s2 : string) : Py.endswith (s1 +:+ s2) s2 = true.
Proof.
  unfold Py.endswith. rewrite string_app_length.
  replace (String.length s1 + String.length s2 - String.length s2)%nat
    with (String.length s1) by lia.
  rewrite substring_app_r, String.eqb_refl, andb_true_r.
  apply Nat.leb_le. lia.
Qed.

Lemma lower_char_dot c : Py.lower_char c = "."%char → c = "."%char.
Proof.
  destruct c as [[] [] [] [] [] [] [] []]; vm_compute; intros Hc;
    first [discriminate Hc | reflexivity].
Qed.

Lemma lower_char_letter c :
  (Py.lower_char c = "p" ∨ Py.lower_char c = "d" ∨ Py.lower_char c = "f")%char
  → Ascii.eqb c "." = false ∧ Ascii.eqb c "/" = false.
Proof.
  destruct c as [[] [] [] [] [] [] [] []]; vm_compute;
    intros [Hc|[Hc|Hc]]; first [discriminate Hc | done].
Qed.

Lemma existsb_not_dot (s : string) :
  existsb (λ ch, negb (Ascii.eqb ch ".")) (list_ascii_of_string s)
  = negb (all_chars (λ ch, Ascii.eqb ch ".") s).
Proof.
  induction s as [|a s IH]; [done|]. simpl. rewrite IH.
  by destruct (Ascii.eqb a ".").
Qed.

(** The extension of a simple name: what [splitext] makes of a name
    without directory part that ends in [.pdf], whatever the case. *)
Lemma splitext_pdf (stem ext : string) :
  Py.contains "/" stem = false →
  Py.lower ext = ".pdf" →
  os_path.splitext (stem +:+ ext)
  = if all_chars (λ ch, Ascii.eqb ch ".") stem then (stem +:+ ext, "")
    else (stem, ext).
Proof.
  intros Hslash Hext.
  destruct ext as [|c0 [|c1 [|c2 [|c3 [|c4 rest]]]]]; try done.
  injection Hext as H0%lower_char_dot H1 H2 H3. subst c0.
  destruct (lower_char_letter c1) as [Hd1 Hs1]; [auto|].
  destruct (lower_char_letter c2) as [Hd2 Hs2]; [auto|].
  destruct (lower_char_letter c3) as [Hd3 Hs3]; [auto|].
  set (ext := String "." (String c1 (String c2 (String c3 "")))).
  assert (os_path.rfind "/" (stem +:+ ext) = -1) as Hsep.
  { unfold os_path.rfind. rewrite rfind_from_app.
    rewrite (rfind_from_absent _ stem) by done.
    unfold ext. cbn [os_path.rfind_from]. rewrite Hs1, Hs2, Hs3. done. }
  assert (os_path.rfind "." (stem +:+ ext) = Z.of_nat (String.length stem))
    as Hdot.
  { unfold os_path.rfind. rewrite rfind_from_app.
    unfold ext. cbn [os_path.rfind_from]. rewrite Hd1, Hd2, Hd3. done. }
  unfold os_path.splitext. rewrite Hsep, Hdot. cbv zeta.
  replace (Z.of_nat (String.length stem) >? -1) with true by lia.
  replace (Z.to_nat (-1 + 1)) with 0%nat by lia.
  replace (Z.to_nat (Z.of_nat (String.length stem) - (-1 + 1)))
    with (String.length stem) by lia.
  rewrite Nat2Z.id, substring_app_l, existsb_not_dot. cbn [andb].
  destruct (all_chars _ stem); cbn [negb]; [done|].
  rewrite string_app_length.
  replace (String.length stem + String.length ext - String.length stem)%nat
    with (String.length ext) by lia.
  by rewrite substring_app_r.
Qed.

(** X20. For a document whose name has no directory part and ends in
    [.pdf], whatever the case, the archive entry is named [extracted_],
    the name without that extension, [.pdf]; only when the name before the
    extension is empty or all dots is the extension kept, as in
    [extracted_.pdf.pdf]. *)
Theorem batch_entry_name `{Codec} file pages stem ext output_filename data :
  filename file = stem +:+ ext →
  Py.contains "/" stem = false →
  Py.lower ext = ".pdf" →
  process_file file pages = Archived output_filename data →
  output_filename
  = "extracted_"
    +:+ (if all_chars (λ ch, Ascii.eqb ch ".") stem then stem +:+ ext
         else stem)
    +:+ ".pdf".
Proof.
  intros Hname Hslash Hext. unfold process_file.
  destruct (negb _); [done|].
  destruct (PdfReader (content file)) as [[reader_pages info]|e]; [|done].
  destruct (parse_page_selection pages _) as [selection|[]]; try done.
  destruct (add_pages reader_pages selection []); [|done].
  intros [= <- _]. rewrite Hname, (splitext_pdf _ _ Hslash Hext).
  by destruct (all_chars _ stem).
Qed.

Lemma batch_entry_name_witness :
  "extracted_report.v2.pdf"
  = "extracted_"
    +:+ (if all_chars (λ ch, Ascii.eqb ch ".") "report.v2"
         then "report.v2" +:+ ".PDF" else "report.v2")
    +:+ ".pdf".
Proof.
  apply (@batch_entry_name byte_codec
           {| filename := "report.v2.PDF"; content := [Byte.x41] |}
           "1" "report.v2" ".PDF" "extracted_report.v2.pdf" [Byte.x41]);
    reflexivity.
Defined.
